(** * Schema-group privilege reconciliation of the Redshift provider

    A shallow embedding of the schema-group privilege resource of package
    [redshift] and of the [Exists] hook and the catalog lookup of
    [resource_redshift_schema.go].

    The Go code talks to the warehouse through [database/sql] and to the
    plugin host through [*schema.ResourceData].  Both are mutable objects
    handed around by pointer, so the embedding threads one state holding the
    resource data, the warehouse and the log of connection calls made so far.
    The warehouse is a parameter: every statement below holds for any
    behaviour of the connection unless a hypothesis says otherwise.  Calls
    to [log] have no bearing on what is proved and are left out. *)

From Stdlib Require Import ZArith String Ascii List Bool DecimalString Lia.
Import ListNotations.
Local Open Scope string_scope.
Local Open Scope list_scope.

(** ** Errors and values *)

(** Go's [error] values that the code can tell apart: the sentinel
    [sql.ErrNoRows], the package's own [*errorString] built by [NewError],
    and anything else the driver reports. *)
Inductive error : Type :=
| ErrNoRows
| errorString (s : string)
| DriverError (msg : string).

Definition NewError (text : string) : error := errorString text.

(** [err == sql.ErrNoRows] *)
Definition isErrNoRows (e : error) : bool :=
  match e with ErrNoRows => true | _ => false end.

(** [err != nil && err != sql.ErrNoRows]: the error when the test holds. *)
Definition otherThanNoRows (err : option error) : option error :=
  match err with
  | Some e => if isErrNoRows e then None else Some e
  | None => None
  end.

(** A column of a result row, or a query argument. *)
Inductive value : Type :=
| VNull
| VString (s : string)
| VInt (z : Z)
| VBool (b : bool).

(** [fmt.Sprint] of an [int]: decimal digits with a leading minus sign. *)
Definition Sprint (n : Z) : string := NilZero.string_of_int (Z.to_int n).

(** [strings.Join(elems, sep)] *)
Definition Join (elems : list string) (sep : string) : string :=
  String.concat sep elems.

(** ** The connection *)

Inductive handle : Type := OnDB | OnTx.

(** One call made on the connection, with what it answered.  The answer of
    [CQueryRow] is the row handed to [Scan], or the error [Scan] reports. *)
Inductive call : Type :=
| CBegin (r : option error)
| CExec (sql : string) (r : option error)
| CQueryRow (h : handle) (sql : string) (args : list value) (r : error + list value)
| CRollback (r : option error)
| CCommit (r : option error).

(** The warehouse behind the connection: a state and its answer to each
    call of the [Queryer]/[sql.Tx] interface. *)
Record Driver : Type := {
  World : Type;
  drv_begin : World -> option error * World;
  drv_exec : string -> World -> option error * World;
  drv_query : string -> list value -> World -> (error + list value) * World;
  drv_rollback : World -> option error * World;
  drv_commit : World -> option error * World
}.

(** ** Resource data *)

(** The seven boolean attributes of the resource schema. *)
Record PrivilegeSet : Type := {
  ps_select : bool;
  ps_insert : bool;
  ps_update : bool;
  ps_delete : bool;
  ps_references : bool;
  ps_create : bool;
  ps_usage : bool
}.

Definition noPrivileges : PrivilegeSet :=
  {| ps_select := false; ps_insert := false; ps_update := false;
     ps_delete := false; ps_references := false; ps_create := false;
     ps_usage := false |}.

(** Attribute lookup by its name in the resource schema; an unknown name
    reads as the zero value. *)
Definition flag (attribute : string) (p : PrivilegeSet) : bool :=
  if attribute =? "select" then ps_select p
  else if attribute =? "insert" then ps_insert p
  else if attribute =? "update" then ps_update p
  else if attribute =? "delete" then ps_delete p
  else if attribute =? "references" then ps_references p
  else if attribute =? "create" then ps_create p
  else if attribute =? "usage" then ps_usage p
  else false.

(** [*schema.ResourceData] as this resource uses it: the identifier, the two
    integer attributes, the flags of the prior state (all false when there
    is none), the flags of the configuration merged with the diff, and the
    values written back with [d.Set], newest first. *)
Record ResourceData : Type := {
  rd_id : string;
  rd_schema_id : Z;
  rd_group_id : Z;
  rd_state : PrivilegeSet;
  rd_plan : PrivilegeSet;
  rd_set : list (string * bool)
}.

Fixpoint assoc (key : string) (l : list (string * bool)) : option bool :=
  match l with
  | [] => None
  | (k, v) :: rest => if k =? key then Some v else assoc key rest
  end.

(** [d.Id()] *)
Definition Id (d : ResourceData) : string := rd_id d.

(** [d.SetId(v)] *)
Definition SetId (v : string) (d : ResourceData) : ResourceData :=
  {| rd_id := v; rd_schema_id := rd_schema_id d; rd_group_id := rd_group_id d;
     rd_state := rd_state d; rd_plan := rd_plan d; rd_set := rd_set d |}.

(** [d.Get(key).(bool)]: a value written with [d.Set] wins over the plan. *)
Definition Get (d : ResourceData) (key : string) : bool :=
  match assoc key (rd_set d) with
  | Some v => v
  | None => flag key (rd_plan d)
  end.

(** [d.Get(key).(int)] for the two integer attributes. *)
Definition GetInt (d : ResourceData) (key : string) : Z :=
  if key =? "schema_id" then rd_schema_id d
  else if key =? "group_id" then rd_group_id d
  else 0%Z.

(** [d.GetOk(key)]: the value, and whether it differs from the zero value. *)
Definition GetOk (d : ResourceData) (key : string) : bool * bool :=
  let v := Get d key in (v, v).

(** [d.HasChange(key)]: prior state against the planned value; values
    written with [d.Set] are not consulted. *)
Definition HasChange (d : ResourceData) (key : string) : bool :=
  negb (Bool.eqb (flag key (rd_state d)) (flag key (rd_plan d))).

(** [d.Set(key, v)] *)
Definition Set_ (key : string) (v : bool) (d : ResourceData) : ResourceData :=
  {| rd_id := rd_id d; rd_schema_id := rd_schema_id d;
     rd_group_id := rd_group_id d; rd_state := rd_state d;
     rd_plan := rd_plan d; rd_set := (key, v) :: rd_set d |}.

(** The flags as [d.Get] reports them. *)
Definition observed (d : ResourceData) : PrivilegeSet :=
  {| ps_select := Get d "select"; ps_insert := Get d "insert";
     ps_update := Get d "update"; ps_delete := Get d "delete";
     ps_references := Get d "references"; ps_create := Get d "create";
     ps_usage := Get d "usage" |}.

(** ** Pure helpers of the resource *)

Definition validateGrants (d : ResourceData) : list string :=
  let grants := [] in
  let grants := if (let '(v, ok) := GetOk d "select" in ok && v)
                then grants ++ ["SELECT"] else grants in
  let grants := if (let '(v, ok) := GetOk d "insert" in ok && v)
                then grants ++ ["INSERT"] else grants in
  let grants := if (let '(v, ok) := GetOk d "update" in ok && v)
                then grants ++ ["UPDATE"] else grants in
  let grants := if (let '(v, ok) := GetOk d "delete" in ok && v)
                then grants ++ ["DELETE"] else grants in
  let grants := if (let '(v, ok) := GetOk d "references" in ok && v)
                then grants ++ ["REFERENCES"] else grants in
  grants.

Definition validateSchemaGrants (d : ResourceData) : list string :=
  let grants := [] in
  let grants := if (let '(v, ok) := GetOk d "create" in ok && v)
                then grants ++ ["CREATE"] else grants in
  let grants := if (let '(v, ok) := GetOk d "usage" in ok && v)
                then grants ++ ["USAGE"] else grants in
  grants.

Definition isSystemSchema (schemaOwner : Z) : bool := (schemaOwner =? 1)%Z.

(** ** Query texts *)

Definition existsPrivilegeQuery : string := "select distinct id from (
		select nsp.oid || '_' || pu.grosysid as id
		from pg_group pu, pg_default_acl acl, pg_namespace nsp
		where acl.defaclnamespace = nsp.oid and
		array_to_string(acl.defaclacl, '|') LIKE '%' || 'group ' || pu.groname || '=%'
		and nsp.oid || '_' || pu.grosysid = $1
		union
		select nsp.oid || '_' || pu.grosysid as id
		from  pg_group pu, pg_namespace nsp
		where array_to_string(nsp.nspacl, '|') LIKE '%' || 'group ' || pu.groname || '=%'
			and nsp.oid || '_' || pu.grosysid = $1
		)".

Definition hasPrivilegeQuery : string := "
			select
			cast(bool_or(decode(charindex('r',split_part(split_part(array_to_string(defaclacl, '|'),'group ' || pu.groname,2 ) ,'/',1)),0,0,1)) as int)  as select,
			cast(bool_or(decode(charindex('w',split_part(split_part(array_to_string(defaclacl, '|'),'group ' || pu.groname,2 ) ,'/',1)),0,0,1)) as int)  as update,
			cast(bool_or(decode(charindex('a',split_part(split_part(array_to_string(defaclacl, '|'),'group ' || pu.groname,2 ) ,'/',1)),0,0,1)) as int)  as insert,
			cast(bool_or(decode(charindex('d',split_part(split_part(array_to_string(defaclacl, '|'),'group ' || pu.groname,2 ) ,'/',1)),0,0,1)) as int)  as delete,
			cast(bool_or(decode(charindex('x',split_part(split_part(array_to_string(defaclacl, '|'),'group ' || pu.groname,2 ) ,'/',1)),0,0,1)) as int)  as references
			from pg_group pu, pg_default_acl acl, pg_namespace nsp
			where acl.defaclnamespace = nsp.oid and
			array_to_string(acl.defaclacl, '|') LIKE '%' || 'group ' || pu.groname || '=%'
			and nsp.oid = $1
			and pu.grosysid = $2".

Definition hasSchemaPrivilegeQuery : string := "
			select
			case
				when charindex('U',split_part(split_part(array_to_string(nspacl, '|'), 'group ' || pu.groname,2 ) ,'/',1)) > 0 then 1
				else 0
			end as usage,
			case
				when charindex('C',split_part(split_part(array_to_string(nspacl, '|'),'group ' || pu.groname,2 ) ,'/',1)) > 0 then 1
				else 0
			end as create
			from pg_group pu, pg_namespace nsp
			where array_to_string(nsp.nspacl, '|') LIKE '%' || 'group ' || pu.groname || '=%'
			and nsp.oid = $1
			and pu.grosysid = $2".

Definition existenceQuery : string :=
  "SELECT nspname FROM pg_namespace WHERE oid = $1".

Definition schemaInfoQuery : string :=
  "SELECT nspname, nspowner FROM pg_namespace WHERE oid = $1".

(** Modelled from the spec: [GetGroupNameForGroupId] lives in the group
    resource, which is not part of the sources at hand.  The spec describes
    GroupInfo as a name resolved from a group identifier by the catalog
    reader, like SchemaInfo; the lookup is taken to be the [pg_group]
    counterpart of [GetSchemaInfoForSchemaId]. *)
Definition groupNameQuery : string :=
  "SELECT groname FROM pg_group WHERE grosysid = $1".

(** ** Scanning a row *)

Definition scanError : error := DriverError "sql: Scan error".

(** [Scan] into a [*string], an [*int] and a [*bool].  The privilege
    queries deliver their flags as the integers 0 and 1; a NULL column, or
    one of another shape, makes [Scan] report an error. *)
Definition scanString (v : value) : option string :=
  match v with VString s => Some s | _ => None end.

Definition scanInt (v : value) : option Z :=
  match v with VInt z => Some z | _ => None end.

Definition scanBool (v : value) : option bool :=
  match v with
  | VBool b => Some b
  | VInt 0 => Some false
  | VInt 1 => Some true
  | _ => None
  end.

(** [.Scan(&name)]: the error, and the destination afterwards (the zero
    value unless the scan succeeded). *)
Definition Scan1 (r : error + list value) : option error * string :=
  match r with
  | inl e => (Some e, "")
  | inr [a] =>
      match scanString a with
      | Some s => (None, s)
      | None => (Some scanError, "")
      end
  | inr _ => (Some scanError, "")
  end.

(** [.Scan(&name, &owner)] *)
Definition ScanNameOwner (r : error + list value) : option error * (string * Z) :=
  match r with
  | inl e => (Some e, ("", 0%Z))
  | inr [a; b] =>
      match scanString a, scanInt b with
      | Some s, Some z => (None, (s, z))
      | _, _ => (Some scanError, ("", 0%Z))
      end
  | inr _ => (Some scanError, ("", 0%Z))
  end.

Fixpoint scanBools (row : list value) : option (list bool) :=
  match row with
  | [] => Some []
  | v :: rest =>
      match scanBool v, scanBools rest with
      | Some b, Some bs => Some (b :: bs)
      | _, _ => None
      end
  end.

(** [.Scan(&a, &b, &c, &d, &e)] into five [bool] variables that start false. *)
Definition Scan5 (r : error + list value)
  : option error * (bool * bool * bool * bool * bool) :=
  let zero := (false, false, false, false, false) in
  match r with
  | inl e => (Some e, zero)
  | inr row =>
      match scanBools row with
      | Some [a; b; c; d; e] => (None, (a, b, c, d, e))
      | _ => (Some scanError, zero)
      end
  end.

(** [.Scan(&a, &b)] into two [bool] variables that start false. *)
Definition Scan2 (r : error + list value) : option error * (bool * bool) :=
  match r with
  | inl e => (Some e, (false, false))
  | inr row =>
      match scanBools row with
      | Some [a; b] => (None, (a, b))
      | _ => (Some scanError, (false, false))
      end
  end.

(** ** The statement builder and the executor, as the design describes them *)

(** Statements for one table-level flag on update: none when the flag is
    unchanged, else the GRANT (or REVOKE) on the existing tables and its
    ALTER DEFAULT PRIVILEGES mirror. *)
Definition tableStatements (changed grant : bool)
  (privilege schemaName groupName : string) : list string :=
  if changed then
    if grant then
      [ ("GRANT " ++ privilege ++ " ON ALL TABLES IN SCHEMA " ++ schemaName
          ++ " TO  GROUP " ++ groupName)%string;
        ("ALTER DEFAULT PRIVILEGES IN SCHEMA " ++ schemaName ++ " GRANT "
          ++ privilege ++ " ON TABLES TO GROUP " ++ groupName)%string ]
    else
      [ ("REVOKE " ++ privilege ++ " ON ALL TABLES IN SCHEMA " ++ schemaName
          ++ " FROM GROUP " ++ groupName)%string;
        ("ALTER DEFAULT PRIVILEGES IN SCHEMA " ++ schemaName ++ " REVOKE "
          ++ privilege ++ " ON TABLES FROM GROUP " ++ groupName)%string ]
  else [].

(** Statements for one schema-level flag on update: none when unchanged,
    else a single GRANT or REVOKE on the schema. *)
Definition schemaStatements (changed grant : bool)
  (privilege schemaName groupName : string) : list string :=
  if changed then
    if grant then
      [ ("GRANT " ++ privilege ++ " ON SCHEMA " ++ schemaName ++ " TO  GROUP "
          ++ groupName)%string ]
    else
      [ ("REVOKE " ++ privilege ++ " ON SCHEMA " ++ schemaName
          ++ " FROM GROUP " ++ groupName)%string ]
  else [].

(** All statements of one update, in the order the flags are visited. *)
Definition updateStatements (rd : ResourceData) (schemaName groupName : string)
  : list string :=
  tableStatements (HasChange rd "select") (Get rd "select") "SELECT"
    schemaName groupName
  ++ tableStatements (HasChange rd "insert") (Get rd "insert") "INSERT"
       schemaName groupName
  ++ tableStatements (HasChange rd "update") (Get rd "update") "UPDATE"
       schemaName groupName
  ++ tableStatements (HasChange rd "delete") (Get rd "delete") "DELETE"
       schemaName groupName
  ++ tableStatements (HasChange rd "references") (Get rd "references")
       "REFERENCES" schemaName groupName
  ++ schemaStatements (HasChange rd "usage") (Get rd "usage") "USAGE"
       schemaName groupName
  ++ schemaStatements (HasChange rd "create") (Get rd "create") "CREATE"
       schemaName groupName.

(** All statements of one create: the table-level privileges batched into
    one GRANT and one ALTER DEFAULT PRIVILEGES, the schema-level privileges
    batched into one GRANT. *)
Definition createStatements (grants schemaGrants : list string)
  (schemaName groupName : string) : list string :=
  (if (0 <? length grants)%nat then
     [ ("GRANT " ++ Join grants "," ++ " ON ALL TABLES IN SCHEMA " ++ schemaName
         ++ " TO GROUP " ++ groupName)%string;
        ("ALTER DEFAULT PRIVILEGES IN SCHEMA " ++ schemaName ++ " GRANT "
         ++ Join grants "," ++ " ON TABLES TO GROUP " ++ groupName)%string ]
   else [])
  ++ (if (0 <? length schemaGrants)%nat then
        [ ("GRANT " ++ Join schemaGrants "," ++ " ON SCHEMA " ++ schemaName
            ++ " TO GROUP " ++ groupName)%string ]
      else []).

Definition deleteStatements (schemaName groupName : string) : list string :=
  [ ("REVOKE ALL ON  ALL TABLES IN SCHEMA " ++ schemaName ++ " FROM GROUP "
      ++ groupName)%string;
        ("ALTER DEFAULT PRIVILEGES IN SCHEMA " ++ schemaName
      ++ " REVOKE ALL ON TABLES FROM GROUP " ++ groupName)%string;
        ("REVOKE ALL ON SCHEMA " ++ schemaName ++ " FROM GROUP " ++ groupName)%string ].

(** ** The state threaded through a hook *)

(** What a hook leaves behind: a returned [error] (nil is [None]) or a
    panic. *)
Inductive outcome : Type :=
| Returned (err : option error)
| Panicked (e : error).

Section Hooks.

Variable D : Driver.

Record St : Type := {
  d : ResourceData;
  world : World D;
  calls : list call
}.

Definition M (A : Type) : Type := St -> A * St.

Definition ret {A : Type} (a : A) : M A := fun st => (a, st).

Definition bind {A B : Type} (m : M A) (k : A -> M B) : M B :=
  fun st => let '(a, st') := m st in k a st'.

Notation "x <- m ;; k" := (bind m (fun x => k))
  (at level 61, m at next level, right associativity).
Notation "' p <- m ;; k" := (bind m (fun x => let 'p := x in k))
  (at level 61, p pattern, m at next level, right associativity).
Notation "m ;;; k" := (bind m (fun _ => k))
  (at level 61, right associativity).

Definition getD : M ResourceData := fun st => (d st, st).

Definition modifyD (f : ResourceData -> ResourceData) : M unit :=
  fun st => (tt, {| d := f (d st); world := world st; calls := calls st |}).

Definition Begin : M (option error) := fun st =>
  let '(r, w) := drv_begin D (world st) in
  (r, {| d := d st; world := w; calls := calls st ++ [CBegin r] |}).

Definition Exec (sql : string) : M (option error) := fun st =>
  let '(r, w) := drv_exec D sql (world st) in
  (r, {| d := d st; world := w; calls := calls st ++ [CExec sql r] |}).

Definition QueryRow (h : handle) (sql : string) (args : list value)
  : M (error + list value) := fun st =>
  let '(r, w) := drv_query D sql args (world st) in
  (r, {| d := d st; world := w; calls := calls st ++ [CQueryRow h sql args r] |}).

Definition Rollback : M (option error) := fun st =>
  let '(r, w) := drv_rollback D (world st) in
  (r, {| d := d st; world := w; calls := calls st ++ [CRollback r] |}).

Definition Commit : M (option error) := fun st =>
  let '(r, w) := drv_commit D (world st) in
  (r, {| d := d st; world := w; calls := calls st ++ [CCommit r] |}).

(** The recurring
    [if rollbackErr := tx.Rollback(); rollbackErr != nil { log... }; return err]:
    the rollback error is only logged. *)
Definition rollbackAndReturn (err : error) : M outcome :=
  Rollback ;;; ret (Returned (Some err)).

(** The closing
    [commitErr := tx.Commit(); if commitErr != nil { log...; return commitErr }; return nil]. *)
Definition commitAndReturn : M outcome :=
  commitErr <- Commit ;;
  match commitErr with
  | Some e => ret (Returned (Some e))
  | None => ret (Returned None)
  end.

(** [if err := m; err != nil { rollback; return err }], then [k]. *)
Definition tryOr (m : M (option error)) (k : M outcome) : M outcome :=
  err <- m ;;
  match err with
  | Some e => rollbackAndReturn e
  | None => k
  end.

Notation "'try' m 'orRollback' ;; k" := (tryOr m k)
  (at level 61, m at next level, right associativity).

(** The transaction executor: run the statements in order, stop at the
    first error. *)
Fixpoint execAll (stmts : list string) : M (option error) :=
  match stmts with
  | [] => ret None
  | sql :: rest =>
      err <- Exec sql ;;
      match err with
      | Some e => ret (Some e)
      | None => execAll rest
      end
  end.

(** ** Catalog lookups *)

Definition GetSchemaInfoForSchemaId (q : handle) (schemaId : Z)
  : M (string * Z * option error) :=
  r <- QueryRow q schemaInfoQuery [VInt schemaId] ;;
  let '(err, (name, owner)) := ScanNameOwner r in
  match err with
  | Some e => ret ("", (-1)%Z, Some e)
  | None => ret (name, owner, None)
  end.

(** Modelled from the spec: the group-name lookup (see [groupNameQuery]). *)
Definition GetGroupNameForGroupId (q : handle) (groupId : Z)
  : M (string * option error) :=
  r <- QueryRow q groupNameQuery [VInt groupId] ;;
  let '(err, name) := Scan1 r in
  match err with
  | Some e => ret ("", Some e)
  | None => ret (name, None)
  end.

(** ** Exists *)

Definition resourceRedshiftSchemaGroupPrivilegeExists : M (bool * option error) :=
  d <- getD ;;
  r <- QueryRow OnDB existsPrivilegeQuery [VString (Id d)] ;;
  let '(err, privilegeId) := Scan1 r in
  match err with
  | Some e => if isErrNoRows e then ret (false, None) else ret (false, Some e)
  | None => ret (true, None)
  end.

Definition resourceRedshiftSchemaExists : M (bool * option error) :=
  d <- getD ;;
  r <- QueryRow OnDB existenceQuery [VString (Id d)] ;;
  let '(err, name) := Scan1 r in
  match err with
  | Some e => if isErrNoRows e then ret (false, None) else ret (false, Some e)
  | None => ret (true, None)
  end.

(** ** Read *)

Definition readRedshiftSchemaGroupPrivilege : M (option error) :=
  d0 <- getD ;;
  r <- QueryRow OnTx hasPrivilegeQuery
         [VInt (GetInt d0 "schema_id"); VInt (GetInt d0 "group_id")] ;;
  let '(privilegesError,
        (selectPrivilege, updatePrivilege, insertPrivilege, deletePrivilege,
         referencesPrivilege)) := Scan5 r in
  match otherThanNoRows privilegesError with
  | Some e => Rollback ;;; ret (Some e)
  | None =>
  r <- QueryRow OnTx hasSchemaPrivilegeQuery
         [VInt (GetInt d0 "schema_id"); VInt (GetInt d0 "group_id")] ;;
  let '(schemaPrivilegesError, (usagePrivilege, createPrivilege)) := Scan2 r in
  match otherThanNoRows schemaPrivilegesError with
  | Some e => Rollback ;;; ret (Some e)
  | None =>
  modifyD (Set_ "usage" usagePrivilege) ;;;
  modifyD (Set_ "create" createPrivilege) ;;;
  modifyD (Set_ "select" selectPrivilege) ;;;
  modifyD (Set_ "insert" insertPrivilege) ;;;
  modifyD (Set_ "update" updatePrivilege) ;;;
  modifyD (Set_ "delete" deletePrivilege) ;;;
  modifyD (Set_ "references" referencesPrivilege) ;;;
  ret None
  end
  end.

(** ** Update of one attribute *)

Definition updatePrivilege (attribute privilege schemaName groupName : string)
  : M (option error) :=
  d <- getD ;;
  if negb (HasChange d attribute) then ret None
  else if Get d attribute then
    err <- Exec ("GRANT " ++ privilege ++ " ON ALL TABLES IN SCHEMA "
                 ++ schemaName ++ " TO  GROUP " ++ groupName) ;;
    match err with
    | Some e => ret (Some e)
    | None =>
    err <- Exec ("ALTER DEFAULT PRIVILEGES IN SCHEMA " ++ schemaName
                 ++ " GRANT " ++ privilege ++ " ON TABLES TO GROUP "
                 ++ groupName) ;;
    match err with
    | Some e => ret (Some e)
    | None => ret None
    end
    end
  else
    err <- Exec ("REVOKE " ++ privilege ++ " ON ALL TABLES IN SCHEMA "
                 ++ schemaName ++ " FROM GROUP " ++ groupName) ;;
    match err with
    | Some e => ret (Some e)
    | None =>
    err <- Exec ("ALTER DEFAULT PRIVILEGES IN SCHEMA " ++ schemaName
                 ++ " REVOKE " ++ privilege ++ " ON TABLES FROM GROUP "
                 ++ groupName) ;;
    match err with
    | Some e => ret (Some e)
    | None => ret None
    end
    end.

Definition updateSchemaPrivilege
  (attribute privilege schemaName groupName : string) : M (option error) :=
  d <- getD ;;
  if negb (HasChange d attribute) then ret None
  else if Get d attribute then
    err <- Exec ("GRANT " ++ privilege ++ " ON SCHEMA " ++ schemaName
                 ++ " TO  GROUP " ++ groupName) ;;
    match err with
    | Some e => ret (Some e)
    | None => ret None
    end
  else
    err <- Exec ("REVOKE " ++ privilege ++ " ON SCHEMA " ++ schemaName
                 ++ " FROM GROUP " ++ groupName) ;;
    match err with
    | Some e => ret (Some e)
    | None => ret None
    end.

(** ** Create *)

Definition resourceRedshiftSchemaGroupPrivilegeCreate : M outcome :=
  txErr <- Begin ;;
  match txErr with
  | Some e => ret (Panicked e)
  | None =>
  d <- getD ;;
  let grants := validateGrants d in
  let schemaGrants := validateSchemaGrants d in
  if (length grants =? 0)%nat && (length schemaGrants =? 0)%nat then
    rollbackAndReturn (NewError "Must have at least 1 privilege")
  else
  '(schemaName, schemaOwner, schemaErr) <-
     GetSchemaInfoForSchemaId OnTx (GetInt d "schema_id") ;;
  match schemaErr with
  | Some e => rollbackAndReturn e
  | None =>
  if isSystemSchema schemaOwner then
    rollbackAndReturn
      (NewError ("Privilege creation is not allowed for system schemas, schema="
                 ++ schemaName))
  else
  '(groupName, groupErr) <- GetGroupNameForGroupId OnTx (GetInt d "group_id") ;;
  match groupErr with
  | Some e => rollbackAndReturn e
  | None =>
  try (if (0 <? length grants)%nat then
         err <- Exec ("GRANT " ++ Join grants "," ++ " ON ALL TABLES IN SCHEMA "
                      ++ schemaName ++ " TO GROUP " ++ groupName) ;;
         match err with
         | Some e => ret (Some e)
         | None =>
             Exec ("ALTER DEFAULT PRIVILEGES IN SCHEMA " ++ schemaName
                   ++ " GRANT " ++ Join grants "," ++ " ON TABLES TO GROUP "
                   ++ groupName)
         end
       else ret None) orRollback ;;
  try (if (0 <? length schemaGrants)%nat then
         Exec ("GRANT " ++ Join schemaGrants "," ++ " ON SCHEMA " ++ schemaName
               ++ " TO GROUP " ++ groupName)
       else ret None) orRollback ;;
  modifyD (SetId (Sprint (GetInt d "schema_id") ++ "_"
                  ++ Sprint (GetInt d "group_id"))) ;;;
  try readRedshiftSchemaGroupPrivilege orRollback ;;
  commitAndReturn
  end
  end
  end.

(** ** Read *)

Definition resourceRedshiftSchemaGroupPrivilegeRead : M outcome :=
  txErr <- Begin ;;
  match txErr with
  | Some e => ret (Panicked e)
  | None =>
  try readRedshiftSchemaGroupPrivilege orRollback ;;
  commitAndReturn
  end.

(** ** Update *)

Definition resourceRedshiftSchemaGroupPrivilegeUpdate : M outcome :=
  txErr <- Begin ;;
  match txErr with
  | Some e => ret (Panicked e)
  | None =>
  d <- getD ;;
  let grants := validateGrants d in
  let schemaGrants := validateSchemaGrants d in
  if (length grants =? 0)%nat && (length schemaGrants =? 0)%nat then
    rollbackAndReturn (NewError "Must have at least 1 privilege")
  else
  '(schemaName, _, schemaErr) <-
     GetSchemaInfoForSchemaId OnTx (GetInt d "schema_id") ;;
  match schemaErr with
  | Some e => rollbackAndReturn e
  | None =>
  '(groupName, groupErr) <- GetGroupNameForGroupId OnTx (GetInt d "group_id") ;;
  match groupErr with
  | Some e => rollbackAndReturn e
  | None =>
  try updatePrivilege "select" "SELECT" schemaName groupName orRollback ;;
  try updatePrivilege "insert" "INSERT" schemaName groupName orRollback ;;
  try updatePrivilege "update" "UPDATE" schemaName groupName orRollback ;;
  try updatePrivilege "delete" "DELETE" schemaName groupName orRollback ;;
  try updatePrivilege "references" "REFERENCES" schemaName groupName orRollback ;;
  try updateSchemaPrivilege "usage" "USAGE" schemaName groupName orRollback ;;
  try updateSchemaPrivilege "create" "CREATE" schemaName groupName orRollback ;;
  commitAndReturn
  end
  end
  end.

(** ** Delete *)

Definition resourceRedshiftSchemaGroupPrivilegeDelete : M outcome :=
  txErr <- Begin ;;
  match txErr with
  | Some e => ret (Panicked e)
  | None =>
  d <- getD ;;
  '(schemaName, _, schemaErr) <-
     GetSchemaInfoForSchemaId OnTx (GetInt d "schema_id") ;;
  match schemaErr with
  | Some e => rollbackAndReturn e
  | None =>
  '(groupName, groupErr) <- GetGroupNameForGroupId OnTx (GetInt d "group_id") ;;
  match groupErr with
  | Some e => rollbackAndReturn e
  | None =>
  try Exec ("REVOKE ALL ON  ALL TABLES IN SCHEMA " ++ schemaName
            ++ " FROM GROUP " ++ groupName) orRollback ;;
  try Exec ("ALTER DEFAULT PRIVILEGES IN SCHEMA " ++ schemaName
            ++ " REVOKE ALL ON TABLES FROM GROUP " ++ groupName) orRollback ;;
  try Exec ("REVOKE ALL ON SCHEMA " ++ schemaName ++ " FROM GROUP "
            ++ groupName) orRollback ;;
  commitAndReturn
  end
  end
  end.

(** ** The hooks over the statement builder and the executor

    The same hooks with their statement blocks replaced by one run of the
    executor over the builder's list. *)

Definition createViaExecutor : M outcome :=
  txErr <- Begin ;;
  match txErr with
  | Some e => ret (Panicked e)
  | None =>
  d <- getD ;;
  let grants := validateGrants d in
  let schemaGrants := validateSchemaGrants d in
  if (length grants =? 0)%nat && (length schemaGrants =? 0)%nat then
    rollbackAndReturn (NewError "Must have at least 1 privilege")
  else
  '(schemaName, schemaOwner, schemaErr) <-
     GetSchemaInfoForSchemaId OnTx (GetInt d "schema_id") ;;
  match schemaErr with
  | Some e => rollbackAndReturn e
  | None =>
  if isSystemSchema schemaOwner then
    rollbackAndReturn
      (NewError ("Privilege creation is not allowed for system schemas, schema="
                 ++ schemaName))
  else
  '(groupName, groupErr) <- GetGroupNameForGroupId OnTx (GetInt d "group_id") ;;
  match groupErr with
  | Some e => rollbackAndReturn e
  | None =>
  try execAll (createStatements grants schemaGrants schemaName groupName)
    orRollback ;;
  modifyD (SetId (Sprint (GetInt d "schema_id") ++ "_"
                  ++ Sprint (GetInt d "group_id"))) ;;;
  try readRedshiftSchemaGroupPrivilege orRollback ;;
  commitAndReturn
  end
  end
  end.

Definition updateViaExecutor : M outcome :=
  txErr <- Begin ;;
  match txErr with
  | Some e => ret (Panicked e)
  | None =>
  d <- getD ;;
  let grants := validateGrants d in
  let schemaGrants := validateSchemaGrants d in
  if (length grants =? 0)%nat && (length schemaGrants =? 0)%nat then
    rollbackAndReturn (NewError "Must have at least 1 privilege")
  else
  '(schemaName, _, schemaErr) <-
     GetSchemaInfoForSchemaId OnTx (GetInt d "schema_id") ;;
  match schemaErr with
  | Some e => rollbackAndReturn e
  | None =>
  '(groupName, groupErr) <- GetGroupNameForGroupId OnTx (GetInt d "group_id") ;;
  match groupErr with
  | Some e => rollbackAndReturn e
  | None =>
  try execAll (updateStatements d schemaName groupName) orRollback ;;
  commitAndReturn
  end
  end
  end.

Definition deleteViaExecutor : M outcome :=
  txErr <- Begin ;;
  match txErr with
  | Some e => ret (Panicked e)
  | None =>
  d <- getD ;;
  '(schemaName, _, schemaErr) <-
     GetSchemaInfoForSchemaId OnTx (GetInt d "schema_id") ;;
  match schemaErr with
  | Some e => rollbackAndReturn e
  | None =>
  '(groupName, groupErr) <- GetGroupNameForGroupId OnTx (GetInt d "group_id") ;;
  match groupErr with
  | Some e => rollbackAndReturn e
  | None =>
  try execAll (deleteStatements schemaName groupName) orRollback ;;
  commitAndReturn
  end
  end
  end.

End Hooks.

Arguments d {D} _.
Arguments world {D} _.
Arguments calls {D} _.
Arguments ret {D A} _ _.
Arguments bind {D A B} _ _ _.
Arguments tryOr {D} _ _ _.

(** A hook started on resource data [rd] and warehouse [w], with an empty
    call log. *)
Definition start (D : Driver) (rd : ResourceData) (w : World D) : St D :=
  {| d := rd; world := w; calls := [] |}.

(** The statements of a call log, and the log entries of statements that
    all went through. *)
Definition isExec (c : call) : bool :=
  match c with CExec _ _ => true | _ => false end.

Definition isCommit (c : call) : bool :=
  match c with CCommit _ => true | _ => false end.

Definition isRollback (c : call) : bool :=
  match c with CRollback _ => true | _ => false end.

Definition isBegin (c : call) : bool :=
  match c with CBegin _ => true | _ => false end.

Definition isQueryRow (c : call) : bool :=
  match c with CQueryRow _ _ _ _ => true | _ => false end.

Definition statementOf (c : call) : option string :=
  match c with CExec sql _ => Some sql | _ => None end.

Fixpoint statements (log : list call) : list string :=
  match log with
  | [] => []
  | c :: rest =>
      match statementOf c with
      | Some sql => sql :: statements rest
      | None => statements rest
      end
  end.

Definition executed (stmts : list string) : list call :=
  map (fun sql => CExec sql None) stmts.

(** The attributes with their privilege keywords, in the order the code
    visits them. *)
Definition tableLevel : list (string * string) :=
  [ ("select", "SELECT"); ("insert", "INSERT"); ("update", "UPDATE");
    ("delete", "DELETE"); ("references", "REFERENCES") ].

Definition schemaLevelOnCreate : list (string * string) :=
  [ ("create", "CREATE"); ("usage", "USAGE") ].

Definition schemaLevelOnUpdate : list (string * string) :=
  [ ("usage", "USAGE"); ("create", "CREATE") ].

Definition keywords (rd : ResourceData) (table : list (string * string))
  : list string :=
  map snd (filter (fun ap => Get rd (fst ap)) table).

(** What a run of the executor adds to the log: every statement accepted,
    or the accepted ones followed by the first refused one. *)
Inductive ran (stmts : list string) : option error -> list call -> Prop :=
| ran_all : ran stmts None (executed stmts)
| ran_until (pre post : list string) (sql : string) (e : error) :
    stmts = pre ++ sql :: post ->
    ran stmts (Some e) (executed pre ++ [CExec sql (Some e)]).

(** The resource data after a successful read-back: the seven [d.Set]
    calls of [readRedshiftSchemaGroupPrivilege], in its order. *)
Definition readBack (table : bool * bool * bool * bool * bool)
  (schemaLevel : bool * bool) (rd : ResourceData) : ResourceData :=
  let '(selectPrivilege, updatePrivilege, insertPrivilege, deletePrivilege,
        referencesPrivilege) := table in
  let '(usagePrivilege, createPrivilege) := schemaLevel in
  Set_ "references" referencesPrivilege
    (Set_ "delete" deletePrivilege
      (Set_ "update" updatePrivilege
        (Set_ "insert" insertPrivilege
          (Set_ "select" selectPrivilege
            (Set_ "create" createPrivilege
              (Set_ "usage" usagePrivilege rd)))))).

(** How many attributes of a table the plan changes. *)
Definition changedCount (rd : ResourceData) (table : list (string * string))
  : nat :=
  length (filter (fun ap => HasChange rd (fst ap)) table).

(** How often [needle] occurs in [hay]. *)
Fixpoint occurrences (needle hay : string) : nat :=
  match hay with
  | EmptyString => 0
  | String _ rest =>
      (if String.prefix needle hay then 1 else 0) + occurrences needle rest
  end.

(** ** What a read-back stores *)

(** The flags a read-back stores, from what the two scans left in the
    variables: the first query's columns are select, update, insert,
    delete, references, the second's usage, create. *)
Definition flagsRead (table : bool * bool * bool * bool * bool)
  (schemaLevel : bool * bool) : PrivilegeSet :=
  let '(selectPrivilege, updatePrivilege, insertPrivilege, deletePrivilege,
        referencesPrivilege) := table in
  let '(usagePrivilege, createPrivilege) := schemaLevel in
  {| ps_select := selectPrivilege; ps_insert := insertPrivilege;
     ps_update := updatePrivilege; ps_delete := deletePrivilege;
     ps_references := referencesPrivilege; ps_create := createPrivilege;
     ps_usage := usagePrivilege |}.

(** A flag as the privilege queries deliver it. *)
Definition flagColumn (b : bool) : value := VInt (if b then 1 else 0).

(** ** Import of a privilege association *)

Section ImportHook.

Variable D : Driver.

(** [resourceRedshiftSchemaGroupPrivilegeImport]: the slice returned (nil
    is the empty list) and how the call ended. *)
Definition resourceRedshiftSchemaGroupPrivilegeImport
  : M D (list ResourceData * outcome) :=
  bind (resourceRedshiftSchemaGroupPrivilegeRead D) (fun err =>
    match err with
    | Panicked e => ret ([], Panicked e)
    | Returned (Some e) => ret ([], Returned (Some e))
    | Returned None =>
        bind (getD D) (fun d => ret ([d], Returned None))
    end).

End ImportHook.

(** ** The schema resource

    The hooks of [resource_redshift_schema.go] beside [Exists].  The
    identifier lives in the resource data as before; the attributes of the
    schema resource are passed in and handed back.  [Exec] on the connection
    itself is logged like [Exec] on a transaction; the five seconds Create
    sleeps after its statement are not modelled. *)

Record SchemaAttributes : Type := {
  sa_schema_name : string;
  sa_owner : Z;
  sa_quota : Z;
  sa_cascade_on_delete : bool
}.

(** What [d.Set] has written, per attribute. *)
Record SchemaWritten : Type := {
  sw_schema_name : option string;
  sw_owner : option Z;
  sw_quota : option Z
}.

(** The attributes of the prior state (zero values when there is none), of
    the plan, and the values written back. *)
Record SchemaData : Type := {
  sd_state : SchemaAttributes;
  sd_plan : SchemaAttributes;
  sd_written : SchemaWritten
}.

Definition orPlanned {A : Type} (written : option A) (planned : A) : A :=
  match written with
  | Some v => v
  | None => planned
  end.

(** [d.Get(key).(string)] *)
Definition SGetString (sd : SchemaData) (key : string) : string :=
  if key =? "schema_name"
  then orPlanned (sw_schema_name (sd_written sd)) (sa_schema_name (sd_plan sd))
  else "".

(** [d.Get(key).(int)] *)
Definition SGetInt (sd : SchemaData) (key : string) : Z :=
  if key =? "owner"
  then orPlanned (sw_owner (sd_written sd)) (sa_owner (sd_plan sd))
  else if key =? "quota"
  then orPlanned (sw_quota (sd_written sd)) (sa_quota (sd_plan sd))
  else 0%Z.

(** [d.Get(key).(bool)] *)
Definition SGetBool (sd : SchemaData) (key : string) : bool :=
  if key =? "cascade_on_delete" then sa_cascade_on_delete (sd_plan sd)
  else false.

(** [d.GetOk(key)] on an integer and on a boolean attribute: the value, and
    whether it differs from the zero value. *)
Definition SGetOkInt (sd : SchemaData) (key : string) : Z * bool :=
  let v := SGetInt sd key in (v, negb (v =? 0)%Z).

Definition SGetOkBool (sd : SchemaData) (key : string) : bool * bool :=
  let v := SGetBool sd key in (v, v).

(** [d.HasChange(key)]: prior state against plan. *)
Definition SHasChange (sd : SchemaData) (key : string) : bool :=
  if key =? "schema_name"
  then negb (sa_schema_name (sd_state sd) =? sa_schema_name (sd_plan sd))
  else if key =? "owner"
  then negb (sa_owner (sd_state sd) =? sa_owner (sd_plan sd))%Z
  else if key =? "quota"
  then negb (sa_quota (sd_state sd) =? sa_quota (sd_plan sd))%Z
  else if key =? "cascade_on_delete"
  then negb (Bool.eqb (sa_cascade_on_delete (sd_state sd))
               (sa_cascade_on_delete (sd_plan sd)))
  else false.

(** [d.GetChange(key)] on a string attribute: old and new value. *)
Definition SGetChangeString (sd : SchemaData) (key : string)
  : string * string :=
  if key =? "schema_name"
  then (sa_schema_name (sd_state sd), sa_schema_name (sd_plan sd))
  else ("", "").

(** [d.Set(key, v)] with a string and with an integer. *)
Definition SSetString (key : string) (v : string) (sd : SchemaData)
  : SchemaData :=
  if key =? "schema_name" then
    {| sd_state := sd_state sd; sd_plan := sd_plan sd;
       sd_written := {| sw_schema_name := Some v;
                        sw_owner := sw_owner (sd_written sd);
                        sw_quota := sw_quota (sd_written sd) |} |}
  else sd.

Definition SSetInt (key : string) (v : Z) (sd : SchemaData) : SchemaData :=
  if key =? "owner" then
    {| sd_state := sd_state sd; sd_plan := sd_plan sd;
       sd_written := {| sw_schema_name := sw_schema_name (sd_written sd);
                        sw_owner := Some v;
                        sw_quota := sw_quota (sd_written sd) |} |}
  else if key =? "quota" then
    {| sd_state := sd_state sd; sd_plan := sd_plan sd;
       sd_written := {| sw_schema_name := sw_schema_name (sd_written sd);
                        sw_owner := sw_owner (sd_written sd);
                        sw_quota := Some v |} |}
  else sd.

(** [strconv.Itoa] *)
Definition Itoa (i : Z) : string := Sprint i.

Definition oidQuery : string :=
  "SELECT oid FROM pg_namespace WHERE nspname = $1".

Definition readSchemaQuery : string := "
			SELECT trim(nspname) AS nspname, nspowner, coalesce(quota, 0) AS quota
			FROM pg_namespace LEFT JOIN svv_schema_quota_state
				ON svv_schema_quota_state.schema_id = pg_namespace.oid
			WHERE pg_namespace.oid = $1".

(** [.Scan(&oid)] into a [string] that becomes the identifier: as
    [database/sql] does, an integer or boolean column is formatted, a NULL
    is an error. *)
Definition scanText (v : value) : option string :=
  match v with
  | VNull => None
  | VString s => Some s
  | VInt z => Some (Sprint z)
  | VBool b => Some (if b then "true" else "false")
  end.

Definition ScanText (r : error + list value) : option error * string :=
  match r with
  | inl e => (Some e, "")
  | inr [a] =>
      match scanText a with
      | Some s => (None, s)
      | None => (Some scanError, "")
      end
  | inr _ => (Some scanError, "")
  end.

(** [.Scan(&schemaName, &owner, &quota)] *)
Definition ScanNameOwnerQuota (r : error + list value)
  : option error * (string * Z * Z) :=
  match r with
  | inl e => (Some e, ("", 0%Z, 0%Z))
  | inr [a; b; c] =>
      match scanString a, scanInt b, scanInt c with
      | Some s, Some o, Some q => (None, (s, o, q))
      | _, _, _ => (Some scanError, ("", 0%Z, 0%Z))
      end
  | inr _ => (Some scanError, ("", 0%Z, 0%Z))
  end.

(** The value of the panic of [usernames[0]] on an empty slice. *)
Definition indexOutOfRange : error :=
  DriverError "runtime error: index out of range [0] with length 0".

(** The quota as the statements word it. *)
Definition quotaClause (quota : Z) : string :=
  if (quota =? 0)%Z then "UNLIMITED" else (Sprint quota ++ " MB")%string.

(** The statements of a schema update that leaves the owner alone, as the
    code words them: the rename from the old to the new name, then the
    quota under the name read with [d.Get]. *)
Definition schemaUpdateStatements (sd : SchemaData) : list string :=
  (if SHasChange sd "schema_name"
   then [("ALTER SCHEMA " ++ sa_schema_name (sd_state sd) ++ " RENAME TO "
          ++ sa_schema_name (sd_plan sd))%string]
   else [])
  ++ (if SHasChange sd "quota"
      then [("ALTER SCHEMA " ++ SGetString sd "schema_name" ++ " QUOTA "
             ++ quotaClause (SGetInt sd "quota"))%string]
      else []).

Section SchemaHooks.

Variable D : Driver.

(** [GetUsersnamesForUsesysid] lives in the user resource, which is not
    among the sources; it is a parameter here. *)
Variable GetUsersnamesForUsesysid : list Z -> M D (list string).

Notation "x <- m ;; k" := (bind m (fun x => k))
  (at level 61, m at next level, right associativity).
Notation "' p <- m ;; k" := (bind m (fun x => let 'p := x in k))
  (at level 61, p pattern, m at next level, right associativity).
Notation "m ;;; k" := (bind m (fun _ => k))
  (at level 61, right associativity).

Definition readRedshiftSchema (sd : SchemaData)
  : M D (option error * SchemaData) :=
  d <- getD D ;;
  r <- QueryRow D OnDB readSchemaQuery [VString (Id d)] ;;
  let '(err, (schemaName, owner, quota)) := ScanNameOwnerQuota r in
  match err with
  | Some e => ret (Some e, sd)
  | None =>
      ret (None,
           SSetInt "quota" quota
             (SSetInt "owner" owner
                (SSetString "schema_name" schemaName sd)))
  end.

Definition resourceRedshiftSchemaRead (sd : SchemaData)
  : M D (option error * SchemaData) :=
  readRedshiftSchema sd.

Definition resourceRedshiftSchemaCreate (sd : SchemaData)
  : M D (outcome * SchemaData) :=
  let createStatement : string :=
    ("CREATE SCHEMA " ++ SGetString sd "schema_name")%string in
  withOwner <-
    (let '(v, ok) := SGetOkInt sd "owner" in
     if ok then
       usernames <- GetUsersnamesForUsesysid [v] ;;
       match usernames with
       | [] => ret (inl indexOutOfRange)
       | first :: _ =>
           ret (inr (createStatement ++ " AUTHORIZATION " ++ first)%string)
       end
     else ret (inr createStatement)) ;;
  match withOwner with
  | inl p => ret (Panicked p, sd)
  | inr createStatement =>
  let createStatement : string :=
    (let '(v, ok) := SGetOkInt sd "quota" in
     if ok && negb (v =? 0)%Z
     then createStatement ++ " QUOTA " ++ Itoa v ++ " MB"
     else createStatement ++ " QUOTA UNLIMITED")%string in
  err <- Exec D createStatement ;;
  match err with
  | Some e => ret (Returned (Some e), sd)
  | None =>
  r <- QueryRow D OnDB oidQuery [VString (SGetString sd "schema_name")] ;;
  let '(err, oid) := ScanText r in
  match err with
  | Some e => ret (Returned (Some e), sd)
  | None =>
  modifyD D (SetId oid) ;;;
  '(readErr, sd) <- readRedshiftSchema sd ;;
  ret (Returned readErr, sd)
  end
  end
  end.

Definition resourceRedshiftSchemaUpdate (sd : SchemaData)
  : M D (outcome * SchemaData) :=
  txErr <- Begin D ;;
  match txErr with
  | Some e => ret (Panicked e, sd)
  | None =>
  err <-
    (if SHasChange sd "schema_name" then
       let '(oldName, newName) := SGetChangeString sd "schema_name" in
       Exec D ("ALTER SCHEMA " ++ oldName ++ " RENAME TO " ++ newName)
     else ret None) ;;
  match err with
  | Some e => ret (Returned (Some e), sd)
  | None =>
  ownerChange <-
    (if SHasChange sd "owner" then
       username <- GetUsersnamesForUsesysid [SGetInt sd "owner"] ;;
       match username with
       | [] => ret (inl indexOutOfRange)
       | first :: _ =>
           err <- Exec D ("ALTER SCHEMA " ++ SGetString sd "schema_name"
                          ++ " OWNER TO " ++ first) ;;
           ret (inr err)
       end
     else ret (inr None)) ;;
  match ownerChange with
  | inl p => ret (Panicked p, sd)
  | inr (Some e) => ret (Returned (Some e), sd)
  | inr None =>
  err <-
    (if SHasChange sd "quota" then
       let quota : string :=
         (let '(v, ok) := SGetOkInt sd "quota" in
          if ok && negb (v =? 0)%Z then Itoa v ++ " MB" else "UNLIMITED")%string
       in
       Exec D ("ALTER SCHEMA " ++ SGetString sd "schema_name" ++ " QUOTA "
               ++ quota)
     else ret None) ;;
  match err with
  | Some e => ret (Returned (Some e), sd)
  | None =>
  '(err, sd) <- readRedshiftSchema sd ;;
  match err with
  | Some e => Rollback D ;;; ret (Returned (Some e), sd)
  | None =>
      commitErr <- Commit D ;;
      match commitErr with
      | Some e => ret (Returned (Some e), sd)
      | None => ret (Returned None, sd)
      end
  end
  end
  end
  end
  end.

Definition resourceRedshiftSchemaDelete (sd : SchemaData) : M D outcome :=
  let dropSchemaQuery : string :=
    ("DROP SCHEMA " ++ SGetString sd "schema_name")%string in
  let dropSchemaQuery : string :=
    (let '(v, ok) := SGetOkBool sd "cascade_on_delete" in
     if ok && v then dropSchemaQuery ++ " CASCADE " else dropSchemaQuery)%string
  in
  err <- Exec D dropSchemaQuery ;;
  match err with
  | Some e => ret (Returned (Some e))
  | None => ret (Returned None)
  end.

(** [resourceRedshiftSchemaImport]: the slice returned (nil is the empty
    list), each entry with its identifier and attributes, and the error. *)
Definition resourceRedshiftSchemaImport (sd : SchemaData)
  : M D (list (string * SchemaData) * option error) :=
  '(err, sd) <- resourceRedshiftSchemaRead sd ;;
  match err with
  | Some e => ret ([], Some e)
  | None => d <- getD D ;; ret ([(Id d, sd)], None)
  end.

End SchemaHooks.

(** ** A scripted warehouse

    A small concrete warehouse used to run the hooks on examples: queries
    are answered from a table keyed by the query text, listed statements are
    refused, and statements take effect on commit only. *)
Module Scripted.

Record warehouse : Type := {
  beginError : option error;
  answers : list (string * (error + list value));
  refused : list (string * error);
  pending : list string;
  committed : list string
}.

Fixpoint lookup {A : Type} (key : string) (l : list (string * A)) : option A :=
  match l with
  | [] => None
  | (k, v) :: rest => if k =? key then Some v else lookup key rest
  end.

Definition begin (w : warehouse) : option error * warehouse :=
  (beginError w, w).

Definition exec (sql : string) (w : warehouse) : option error * warehouse :=
  match lookup sql (refused w) with
  | Some e => (Some e, w)
  | None =>
      (None, {| beginError := beginError w; answers := answers w;
                refused := refused w; pending := pending w ++ [sql];
                committed := committed w |})
  end.

Definition query (sql : string) (args : list value) (w : warehouse)
  : (error + list value) * warehouse :=
  match lookup sql (answers w) with
  | Some r => (r, w)
  | None => (inl ErrNoRows, w)
  end.

Definition rollback (w : warehouse) : option error * warehouse :=
  (None, {| beginError := beginError w; answers := answers w;
            refused := refused w; pending := [];
            committed := committed w |}).

Definition commit (w : warehouse) : option error * warehouse :=
  (None, {| beginError := beginError w; answers := answers w;
            refused := refused w; pending := [];
            committed := committed w ++ pending w |}).

Definition driver : Driver :=
  {| World := warehouse; drv_begin := begin; drv_exec := exec;
     drv_query := query; drv_rollback := rollback; drv_commit := commit |}.

(** Schema 100 is named [s] and owned by user 100, schema 11 is the catalog
    schema owned by the reserved owner 1, group 7 is named [g]. *)
Definition names (schemaName : string) (owner : Z) : list (string * (error + list value)) :=
  [ (schemaInfoQuery, inr [VString schemaName; VInt owner]);
    (groupNameQuery, inr [VString "g"]) ].

Definition fresh (answers : list (string * (error + list value)))
  (refused : list (string * error)) : warehouse :=
  {| beginError := None; answers := answers; refused := refused;
     pending := []; committed := [] |}.

Definition privileges (sel ins upd del ref cre usa : bool) : PrivilegeSet :=
  {| ps_select := sel; ps_insert := ins; ps_update := upd; ps_delete := del;
     ps_references := ref; ps_create := cre; ps_usage := usa |}.

Definition resource (schemaId : Z) (prior plan : PrivilegeSet) : ResourceData :=
  {| rd_id := ""; rd_schema_id := schemaId; rd_group_id := 7;
     rd_state := prior; rd_plan := plan; rd_set := [] |}.

End Scripted.

(** ** Schemas for the examples *)

(** The schema [analytics], as planned and as stored. *)
Definition analytics (quota : Z) (cascade : bool) : SchemaAttributes :=
  {| sa_schema_name := "analytics"; sa_owner := 0; sa_quota := quota;
     sa_cascade_on_delete := cascade |}.

Definition unwritten : SchemaWritten :=
  {| sw_schema_name := None; sw_owner := None; sw_quota := None |}.

Definition planned (prior plan : SchemaAttributes) : SchemaData :=
  {| sd_state := prior; sd_plan := plan; sd_written := unwritten |}.

Definition nobody : list Z -> M Scripted.driver (list string) :=
  fun _ => ret [].

(** * Properties *)

(** ** Call logs *)

Lemma statements_app (l1 l2 : list call) :
  statements (l1 ++ l2) = statements l1 ++ statements l2.
Proof.
  induction l1 as [|c l1 IH]; cbn [statements app]; [reflexivity|].
  destruct (statementOf c); cbn [app]; now rewrite IH.
Qed.

Lemma statements_executed (stmts : list string) :
  statements (executed stmts) = stmts.
Proof.
  unfold executed.
  induction stmts as [|sql rest IH]; cbn [map statements statementOf];
    [reflexivity|].
  now rewrite IH.
Qed.

Lemma existsb_executed (p : call -> bool) (stmts : list string) :
  (forall sql, p (CExec sql None) = false) ->
  existsb p (executed stmts) = false.
Proof.
  intros Hp. unfold executed.
  induction stmts as [|sql rest IH]; cbn [map existsb]; [reflexivity|].
  now rewrite Hp, IH.
Qed.

Lemma In_executed_inv (c : call) (stmts : list string) :
  In c (executed stmts) -> exists sql, c = CExec sql None.
Proof.
  unfold executed. rewrite in_map_iff. intros (sql & Hsql & _).
  now exists sql.
Qed.

(** ** Validation *)

Lemma no_grants_iff (rd : ResourceData) :
  (length (validateGrants rd) =? 0)%nat
    && (length (validateSchemaGrants rd) =? 0)%nat = true
  <-> observed rd = noPrivileges.
Proof.
  unfold validateGrants, validateSchemaGrants, GetOk, observed, noPrivileges.
  destruct (Get rd "select"), (Get rd "insert"), (Get rd "update"),
    (Get rd "delete"), (Get rd "references"), (Get rd "create"),
    (Get rd "usage"); cbn; split; intros H; congruence.
Qed.

Lemma some_grants (rd : ResourceData) :
  observed rd <> noPrivileges ->
  (length (validateGrants rd) =? 0)%nat
    && (length (validateSchemaGrants rd) =? 0)%nat = false.
Proof.
  intros H. apply not_true_is_false. intros E. now apply no_grants_iff in E.
Qed.

Lemma validateGrants_keywords (rd : ResourceData) :
  validateGrants rd = keywords rd tableLevel.
Proof.
  unfold validateGrants, keywords, tableLevel, GetOk. cbn [filter fst].
  destruct (Get rd "select"), (Get rd "insert"), (Get rd "update"),
    (Get rd "delete"), (Get rd "references"); reflexivity.
Qed.

Lemma validateSchemaGrants_keywords (rd : ResourceData) :
  validateSchemaGrants rd = keywords rd schemaLevelOnCreate.
Proof.
  unfold validateSchemaGrants, keywords, schemaLevelOnCreate, GetOk.
  cbn [filter fst].
  destruct (Get rd "create"), (Get rd "usage"); reflexivity.
Qed.

(** ** The executor *)

Section Executor.

Variable D : Driver.

Lemma execAll_app (l1 l2 : list string) (st : St D) :
  execAll D (l1 ++ l2) st =
  let '(r, st1) := execAll D l1 st in
  match r with
  | Some e => (Some e, st1)
  | None => execAll D l2 st1
  end.
Proof.
  revert st; induction l1 as [|sql l1 IH]; intros st; [reflexivity|].
  cbn [execAll app]. unfold bind, Exec.
  destruct (drv_exec D sql (world st)) as [[e|] w]; [reflexivity|].
  apply IH.
Qed.

Lemma execAll_ran (stmts : list string) (st : St D) :
  exists log,
    calls (snd (execAll D stmts st)) = calls st ++ log /\
    ran stmts (fst (execAll D stmts st)) log.
Proof.
  revert st; induction stmts as [|sql rest IH]; intros st.
  - exists []. cbn. rewrite app_nil_r. split; [reflexivity|apply ran_all].
  - cbn [execAll]. unfold bind, Exec.
    destruct (drv_exec D sql (world st)) as [[e|] w] eqn:Hexec.
    + exists [CExec sql (Some e)]. cbn. split; [reflexivity|].
      apply (ran_until _ [] rest sql e). reflexivity.
    + destruct (IH {| d := d st; world := w;
                      calls := calls st ++ [CExec sql None] |})
        as (log & Hlog & Hran).
      exists (CExec sql None :: log). cbn [d calls] in *.
      rewrite Hlog, <- app_assoc. split; [reflexivity|].
      destruct Hran as [|pre post sql' e Heq].
      * apply (ran_all (sql :: rest)).
      * apply (ran_until _ (sql :: pre) post sql' e). rewrite Heq. reflexivity.
Qed.

Lemma execAll_d (stmts : list string) (st : St D) :
  d (snd (execAll D stmts st)) = d st.
Proof.
  revert st; induction stmts as [|sql rest IH]; intros st; [reflexivity|].
  cbn [execAll]. unfold bind, Exec.
  destruct (drv_exec D sql (world st)) as [[e|] w]; [reflexivity|].
  now rewrite IH.
Qed.

(** The code's statement blocks are runs of the executor. *)

Lemma updatePrivilege_execAll (attribute privilege s g : string) (st : St D) :
  updatePrivilege D attribute privilege s g st =
  execAll D (tableStatements (HasChange (d st) attribute)
               (Get (d st) attribute) privilege s g) st.
Proof.
  unfold updatePrivilege, tableStatements, bind, getD.
  destruct (HasChange (d st) attribute); [|reflexivity].
  destruct (Get (d st) attribute); reflexivity.
Qed.

Lemma updateSchemaPrivilege_execAll (attribute privilege s g : string)
  (st : St D) :
  updateSchemaPrivilege D attribute privilege s g st =
  execAll D (schemaStatements (HasChange (d st) attribute)
               (Get (d st) attribute) privilege s g) st.
Proof.
  unfold updateSchemaPrivilege, schemaStatements, bind, getD.
  destruct (HasChange (d st) attribute); [|reflexivity].
  destruct (Get (d st) attribute); reflexivity.
Qed.

Lemma tryOr_execAll (stmts : list string) (k : M D outcome) (st : St D) :
  tryOr (execAll D stmts) k st =
  match fst (execAll D stmts st) with
  | Some e => rollbackAndReturn D e (snd (execAll D stmts st))
  | None => k (snd (execAll D stmts st))
  end.
Proof.
  unfold tryOr, bind. destruct (execAll D stmts st) as [[e|] st1]; reflexivity.
Qed.

(** Two guarded blocks in a row run as one block. *)
Lemma tryOr_fuse (f : ResourceData -> list string) (m : M D (option error))
  (stmts : list string) (k : M D outcome) (st : St D) :
  (forall st', m st' = execAll D (f (d st')) st') ->
  tryOr (execAll D stmts) (tryOr m k) st
  = tryOr (execAll D (stmts ++ f (d st))) k st.
Proof.
  intros Hm. unfold tryOr at 1 3. unfold bind. rewrite execAll_app.
  pose proof (execAll_d stmts st) as Hd.
  destruct (execAll D stmts st) as [[e|] st1]; [reflexivity|].
  cbn [snd] in Hd. unfold tryOr, bind. now rewrite Hm, Hd.
Qed.

Lemma update_blocks (s g : string) (k : M D outcome) (st : St D) :
  tryOr (updatePrivilege D "select" "SELECT" s g)
    (tryOr (updatePrivilege D "insert" "INSERT" s g)
      (tryOr (updatePrivilege D "update" "UPDATE" s g)
        (tryOr (updatePrivilege D "delete" "DELETE" s g)
          (tryOr (updatePrivilege D "references" "REFERENCES" s g)
            (tryOr (updateSchemaPrivilege D "usage" "USAGE" s g)
              (tryOr (updateSchemaPrivilege D "create" "CREATE" s g) k))))))
    st
  = tryOr (execAll D (updateStatements (d st) s g)) k st.
Proof.
  change (tryOr (updatePrivilege D "select" "SELECT" s g) ?K st)
    with (tryOr (execAll D []) (tryOr (updatePrivilege D "select" "SELECT" s g) K) st).
  rewrite (tryOr_fuse (fun rd => tableStatements (HasChange rd "select")
             (Get rd "select") "SELECT" s g))
    by (intros; apply updatePrivilege_execAll).
  rewrite (tryOr_fuse (fun rd => tableStatements (HasChange rd "insert")
             (Get rd "insert") "INSERT" s g))
    by (intros; apply updatePrivilege_execAll).
  rewrite (tryOr_fuse (fun rd => tableStatements (HasChange rd "update")
             (Get rd "update") "UPDATE" s g))
    by (intros; apply updatePrivilege_execAll).
  rewrite (tryOr_fuse (fun rd => tableStatements (HasChange rd "delete")
             (Get rd "delete") "DELETE" s g))
    by (intros; apply updatePrivilege_execAll).
  rewrite (tryOr_fuse (fun rd => tableStatements (HasChange rd "references")
             (Get rd "references") "REFERENCES" s g))
    by (intros; apply updatePrivilege_execAll).
  rewrite (tryOr_fuse (fun rd => schemaStatements (HasChange rd "usage")
             (Get rd "usage") "USAGE" s g))
    by (intros; apply updateSchemaPrivilege_execAll).
  rewrite (tryOr_fuse (fun rd => schemaStatements (HasChange rd "create")
             (Get rd "create") "CREATE" s g))
    by (intros; apply updateSchemaPrivilege_execAll).
  unfold updateStatements. cbn [app]. now rewrite <- !app_assoc.
Qed.

End Executor.

(** ** The hooks run the builder's statements through the executor *)

Section Refinement.

Variable D : Driver.

Lemma bind_ext {A B : Type} (m : M D A) (k k' : A -> M D B) (st : St D) :
  (forall a st', k a st' = k' a st') -> bind m k st = bind m k' st.
Proof.
  intros H. unfold bind. destruct (m st) as [a st']. apply H.
Qed.

Lemma create_blocks (grants schemaGrants : list string) (s g : string)
  (k : M D outcome) (st : St D) :
  tryOr
    (if (0 <? length grants)%nat then
       bind (Exec D ("GRANT " ++ Join grants "," ++ " ON ALL TABLES IN SCHEMA "
                     ++ s ++ " TO GROUP " ++ g))
         (fun err =>
            match err with
            | Some e => ret (Some e)
            | None =>
                Exec D ("ALTER DEFAULT PRIVILEGES IN SCHEMA " ++ s ++ " GRANT "
                        ++ Join grants "," ++ " ON TABLES TO GROUP " ++ g)
            end)
     else ret None)
    (tryOr
       (if (0 <? length schemaGrants)%nat then
          Exec D ("GRANT " ++ Join schemaGrants "," ++ " ON SCHEMA " ++ s
                  ++ " TO GROUP " ++ g)
        else ret None)
       k) st
  = tryOr (execAll D (createStatements grants schemaGrants s g)) k st.
Proof.
  unfold createStatements, tryOr, bind, Exec, ret.
  destruct (0 <? length grants)%nat, (0 <? length schemaGrants)%nat;
    cbn [app execAll]; unfold bind, Exec, ret;
    repeat match goal with
    | |- context [drv_exec D ?sql ?before] =>
        destruct (drv_exec D sql before) as [[?e|] ?w]; cbn [d world calls]
    end; reflexivity.
Qed.

Lemma delete_blocks (s g : string) (k : M D outcome) (st : St D) :
  tryOr (Exec D ("REVOKE ALL ON  ALL TABLES IN SCHEMA " ++ s ++ " FROM GROUP "
                 ++ g))
    (tryOr (Exec D ("ALTER DEFAULT PRIVILEGES IN SCHEMA " ++ s
                    ++ " REVOKE ALL ON TABLES FROM GROUP " ++ g))
       (tryOr (Exec D ("REVOKE ALL ON SCHEMA " ++ s ++ " FROM GROUP " ++ g))
          k)) st
  = tryOr (execAll D (deleteStatements s g)) k st.
Proof.
  unfold deleteStatements, tryOr. cbn [execAll]. unfold bind, Exec, ret.
  repeat match goal with
  | |- context [drv_exec D ?sql ?before] =>
      destruct (drv_exec D sql before) as [[?e|] ?w]; cbn [d world calls]
  end; reflexivity.
Qed.

Lemma create_refines (st : St D) :
  resourceRedshiftSchemaGroupPrivilegeCreate D st = createViaExecutor D st.
Proof.
  unfold resourceRedshiftSchemaGroupPrivilegeCreate, createViaExecutor.
  apply bind_ext; intros [e|] st1; [reflexivity|].
  apply bind_ext; intros rd st2.
  destruct ((length (validateGrants rd) =? 0)%nat
            && (length (validateSchemaGrants rd) =? 0)%nat); [reflexivity|].
  apply bind_ext; intros [[s o] [e|]] st3; [reflexivity|].
  destruct (isSystemSchema o); [reflexivity|].
  apply bind_ext; intros [g [e|]] st4; [reflexivity|].
  apply create_blocks.
Qed.

Ltac run_prelude :=
  unfold GetSchemaInfoForSchemaId, GetGroupNameForGroupId, rollbackAndReturn;
  unfold bind, Begin, getD, QueryRow, Rollback, ret;
  repeat (cbn [d world calls fst snd];
          match goal with
          | |- context [drv_begin D ?before] =>
              destruct (drv_begin D before) as [[?e|] ?w]
          | |- context [drv_query D ?sql ?args ?before] =>
              destruct (drv_query D sql args before) as [?r ?w]
          | |- context [ScanNameOwner ?r] =>
              destruct (ScanNameOwner r) as [[?e|] [?s ?o]]
          | |- context [Scan1 ?r] =>
              destruct (Scan1 r) as [[?e|] ?g]
          | |- context [if ?c then _ else _] => destruct c
          end);
  cbn [d world calls fst snd]; try reflexivity.

Lemma update_refines (st : St D) :
  resourceRedshiftSchemaGroupPrivilegeUpdate D st = updateViaExecutor D st.
Proof.
  unfold resourceRedshiftSchemaGroupPrivilegeUpdate, updateViaExecutor.
  run_prelude. now rewrite update_blocks.
Qed.

Lemma delete_refines (st : St D) :
  resourceRedshiftSchemaGroupPrivilegeDelete D st = deleteViaExecutor D st.
Proof.
  unfold resourceRedshiftSchemaGroupPrivilegeDelete, deleteViaExecutor.
  apply bind_ext; intros [e|] st1; [reflexivity|].
  apply bind_ext; intros rd st2.
  apply bind_ext; intros [[s o] [e|]] st3; [reflexivity|].
  apply bind_ext; intros [g [e|]] st4; [reflexivity|].
  apply delete_blocks.
Qed.

End Refinement.

(** ** One step of a hook *)

Section Steps.

Variable D : Driver.

Lemma rollbackAndReturn_run (e : error) (st : St D) :
  rollbackAndReturn D e st =
  (Returned (Some e),
   {| d := d st; world := snd (drv_rollback D (world st));
      calls := calls st ++ [CRollback (fst (drv_rollback D (world st)))] |}).
Proof.
  unfold rollbackAndReturn, bind, Rollback, ret.
  now destruct (drv_rollback D (world st)).
Qed.

Lemma commitAndReturn_run (st : St D) :
  commitAndReturn D st =
  (Returned (fst (drv_commit D (world st))),
   {| d := d st; world := snd (drv_commit D (world st));
      calls := calls st ++ [CCommit (fst (drv_commit D (world st)))] |}).
Proof.
  unfold commitAndReturn, bind, Commit, ret.
  now destruct (drv_commit D (world st)) as [[e|] w].
Qed.

Lemma read_run (st : St D) :
  readRedshiftSchemaGroupPrivilege D st =
  let args := [VInt (GetInt (d st) "schema_id");
               VInt (GetInt (d st) "group_id")] in
  let q1 := drv_query D hasPrivilegeQuery args (world st) in
  match otherThanNoRows (fst (Scan5 (fst q1))) with
  | Some e =>
      (Some e,
       {| d := d st; world := snd (drv_rollback D (snd q1));
          calls := calls st
                   ++ [CQueryRow OnTx hasPrivilegeQuery args (fst q1);
                       CRollback (fst (drv_rollback D (snd q1)))] |})
  | None =>
      let q2 := drv_query D hasSchemaPrivilegeQuery args (snd q1) in
      match otherThanNoRows (fst (Scan2 (fst q2))) with
      | Some e =>
          (Some e,
           {| d := d st; world := snd (drv_rollback D (snd q2));
              calls := calls st
                       ++ [CQueryRow OnTx hasPrivilegeQuery args (fst q1);
                           CQueryRow OnTx hasSchemaPrivilegeQuery args (fst q2);
                           CRollback (fst (drv_rollback D (snd q2)))] |})
      | None =>
          (None,
           {| d := readBack (snd (Scan5 (fst q1))) (snd (Scan2 (fst q2))) (d st);
              world := snd q2;
              calls := calls st
                       ++ [CQueryRow OnTx hasPrivilegeQuery args (fst q1);
                           CQueryRow OnTx hasSchemaPrivilegeQuery args (fst q2)]
           |})
      end
  end.
Proof.
  cbv zeta. unfold readRedshiftSchemaGroupPrivilege, readBack.
  unfold bind, getD, QueryRow, Rollback, modifyD, ret.
  destruct (drv_query D hasPrivilegeQuery _ (world st)) as [r1 w1].
  cbn [fst snd d world calls].
  destruct (Scan5 r1) as [err1 [[[[sel upd] ins] del] ref]]. cbn [fst snd].
  destruct (otherThanNoRows err1); cbn [fst snd d world calls].
  { destruct (drv_rollback D w1). cbn [fst snd d world calls].
    now rewrite <- app_assoc. }
  destruct (drv_query D hasSchemaPrivilegeQuery _ w1) as [r2 w2].
  cbn [fst snd d world calls].
  destruct (Scan2 r2) as [err2 [usa cre]]. cbn [fst snd].
  destruct (otherThanNoRows err2); cbn [fst snd d world calls].
  { destruct (drv_rollback D w2). cbn [fst snd d world calls].
    now rewrite <- !app_assoc. }
  cbn [fst snd d world calls]. now rewrite <- !app_assoc.
Qed.

End Steps.

(** ** Walking through a hook *)

Ltac tidy :=
  cbn [d world calls fst snd GetInt String.eqb Ascii.eqb Bool.eqb andb app
       ScanNameOwner Scan1 scanString scanInt execAll SetId rd_schema_id
       rd_group_id].

Ltac open_hook :=
  cbv zeta;
  rewrite ?create_refines, ?update_refines, ?delete_refines;
  unfold createViaExecutor, updateViaExecutor, deleteViaExecutor,
    resourceRedshiftSchemaGroupPrivilegeRead,
    resourceRedshiftSchemaGroupPrivilegeExists, resourceRedshiftSchemaExists,
    GetSchemaInfoForSchemaId, GetGroupNameForGroupId, start;
  unfold bind, Begin, getD, QueryRow, modifyD, ret;
  tidy.

(** Take the next answer of the warehouse: from a hypothesis when one
    speaks about this call, else by cases. *)
Ltac answer :=
  tidy;
  match goal with
  | H : drv_begin ?D ?before = _ |- context [drv_begin ?D ?before] =>
      rewrite H
  | H : drv_query ?D ?sql ?args ?before = _
    |- context [drv_query ?D ?sql ?args ?before] => rewrite H
  | H : isSystemSchema ?o = _ |- context [isSystemSchema ?o] => rewrite H
  | |- context [drv_begin ?D ?before] =>
      let E := fresh "Hbegin" in
      destruct (drv_begin D before) as [[?e|] ?w] eqn:E
  | |- context [drv_query ?D ?sql ?args ?before] =>
      let E := fresh "Hquery" in
      destruct (drv_query D sql args before) as [?r ?w] eqn:E
  | |- context [ScanNameOwner ?r] =>
      destruct (ScanNameOwner r) as [[?e|] [?s ?o]]
  | |- context [Scan1 ?r] =>
      destruct (Scan1 r) as [[?e|] ?g]
  | |- context [otherThanNoRows ?e] =>
      let E := fresh "Hother" in destruct (otherThanNoRows e) eqn:E
  | |- context [rollbackAndReturn ?D ?e ?st] => rewrite rollbackAndReturn_run
  | |- context [commitAndReturn ?D ?st] => rewrite commitAndReturn_run
  | |- context [readRedshiftSchemaGroupPrivilege ?D ?st] =>
      rewrite read_run; cbv zeta
  | |- context [if ?c then _ else _] =>
      let E := fresh "Hif" in destruct c eqn:E
  end;
  tidy.

(** Through the executor, whichever way it ends, and on to the end. *)
Ltac through_executor :=
  match goal with
  | |- context [tryOr (execAll ?D ?stmts) ?k ?st] =>
      let log := fresh "log" in
      let Hlog := fresh "Hlog" in
      let Hran := fresh "Hran" in
      let Hd := fresh "Hd" in
      rewrite (tryOr_execAll D stmts k st);
      destruct (execAll_ran D stmts st) as (log & Hlog & Hran);
      pose proof (execAll_d D stmts st) as Hd;
      destruct (fst (execAll D stmts st)); inversion Hran; subst;
      unfold tryOr, bind; tidy; repeat answer;
      rewrite ?Hlog, ?Hd; tidy
  end.

(** Where in a log a given call can sit. *)
Ltac locate H :=
  repeat (rewrite in_app_iff in H || cbn [In] in H);
  repeat match type of H with
         | _ \/ _ => destruct H as [H|H]
         end;
  try discriminate H; try contradiction;
  try (apply In_executed_inv in H; destruct H as (? & H); discriminate H).

Ltac scan_log :=
  repeat (rewrite existsb_app || (rewrite existsb_executed by reflexivity)
          || cbn [existsb isCommit isRollback isBegin isExec isQueryRow orb]);
  try reflexivity.

(** A call that is in the log. *)
Ltac logged := repeat (cbn [In] || rewrite in_app_iff); auto 20.

Ltac read_statements :=
  tidy;
  repeat (rewrite ?statements_app, ?statements_executed;
          progress cbn [statements statementOf app]);
  rewrite ?statements_app, ?statements_executed, ?app_nil_r.

(** ** What an update sends *)

Section UpdateLog.

Variable D : Driver.

(** An update that passes validation and resolves both names, with no
    statement refused, sends the builder's list. *)
Lemma update_sends (rd : ResourceData) (w w1 w2 w3 : World D)
  (s g : string) (o : Z) :
  let update := resourceRedshiftSchemaGroupPrivilegeUpdate D (start D rd w) in
  observed rd <> noPrivileges ->
  drv_begin D w = (None, w1) ->
  drv_query D schemaInfoQuery [VInt (rd_schema_id rd)] w1
    = (inr [VString s; VInt o], w2) ->
  drv_query D groupNameQuery [VInt (rd_group_id rd)] w2
    = (inr [VString g], w3) ->
  (forall sql e, ~ In (CExec sql (Some e)) (calls (snd update))) ->
  statements (calls (snd update)) = updateStatements rd s g.
Proof.
  intros update Hsome Hbegin Hschema Hgroup. subst update.
  open_hook. answer. rewrite (some_grants rd Hsome). do 2 answer.
  through_executor; intros Hacc; try (now read_statements);
    exfalso; eapply Hacc; logged.
Qed.

(** The log of an update that commits: the two name lookups, the
    statements, the commit; the privilege queries are not among them. *)
Lemma update_commit_log (rd : ResourceData) (w : World D) (c : option error) :
  let update := resourceRedshiftSchemaGroupPrivilegeUpdate D (start D rd w) in
  In (CCommit c) (calls (snd update)) ->
  exists s g r1 r2,
    calls (snd update)
    = [CBegin None;
       CQueryRow OnTx schemaInfoQuery [VInt (rd_schema_id rd)] r1;
       CQueryRow OnTx groupNameQuery [VInt (rd_group_id rd)] r2]
      ++ executed (updateStatements rd s g) ++ [CCommit c].
Proof.
  open_hook. repeat answer; try (intros Hin; locate Hin; fail).
  through_executor; intros Hin; locate Hin.
  injection Hin as <-.
  eexists _, _, _, _. cbn [app]. reflexivity.
Qed.

Lemma update_never_reads_back (rd : ResourceData) (w : World D)
  (h : handle) (args : list value) (r : error + list value) :
  let update := resourceRedshiftSchemaGroupPrivilegeUpdate D (start D rd w) in
  ~ In (CQueryRow h hasPrivilegeQuery args r) (calls (snd update)) /\
  ~ In (CQueryRow h hasSchemaPrivilegeQuery args r) (calls (snd update)).
Proof.
  split; open_hook; repeat answer; try (intros Hin; locate Hin; fail);
    through_executor; intros Hin; locate Hin.
Qed.

End UpdateLog.

(** ** Validation and the system-schema guard *)

Section Guards.

Variable D : Driver.

(** C1 (as amended): with no flag set, Create and Update open a transaction,
    roll it back and fail with the validation error; the connection sees a
    Begin and a Rollback, no Exec and no QueryRow. *)
Theorem zero_privileges_rejected (rd : ResourceData) (w w1 : World D) :
  observed rd = noPrivileges ->
  drv_begin D w = (None, w1) ->
  let create := resourceRedshiftSchemaGroupPrivilegeCreate D (start D rd w) in
  let update := resourceRedshiftSchemaGroupPrivilegeUpdate D (start D rd w) in
  fst create = Returned (Some (NewError "Must have at least 1 privilege")) /\
  fst update = Returned (Some (NewError "Must have at least 1 privilege")) /\
  calls (snd create) = [CBegin None; CRollback (fst (drv_rollback D w1))] /\
  calls (snd update) = [CBegin None; CRollback (fst (drv_rollback D w1))] /\
  existsb (fun c => isExec c || isQueryRow c) (calls (snd create)) = false /\
  existsb (fun c => isExec c || isQueryRow c) (calls (snd update)) = false.
Proof.
  intros Hzero Hbegin. apply no_grants_iff in Hzero.
  open_hook. answer. rewrite Hzero. answer. repeat split.
Qed.

(** C2 (as amended): on a schema owned by the reserved owner, Create fails
    with a validation error whatever the flags are, sends no statement and
    commits nothing; Update does not look at the owner and sends the
    statements of the changed flags there as anywhere else. *)
Theorem system_schema_guard (rd : ResourceData) (w w1 w2 w3 : World D)
  (name g : string) (owner : Z) :
  let create := resourceRedshiftSchemaGroupPrivilegeCreate D (start D rd w) in
  let update := resourceRedshiftSchemaGroupPrivilegeUpdate D (start D rd w) in
  drv_begin D w = (None, w1) ->
  drv_query D schemaInfoQuery [VInt (rd_schema_id rd)] w1
    = (inr [VString name; VInt owner], w2) ->
  isSystemSchema owner = true ->
  (exists text, fst create = Returned (Some (NewError text))) /\
  (observed rd <> noPrivileges ->
   fst create
   = Returned (Some (NewError
       ("Privilege creation is not allowed for system schemas, schema="
        ++ name)))) /\
  statements (calls (snd create)) = [] /\
  existsb isCommit (calls (snd create)) = false /\
  (observed rd <> noPrivileges ->
   drv_query D groupNameQuery [VInt (rd_group_id rd)] w2
     = (inr [VString g], w3) ->
   (forall sql e, ~ In (CExec sql (Some e)) (calls (snd update))) ->
   statements (calls (snd update)) = updateStatements rd name g).
Proof.
  intros create update Hbegin Hschema Hsystem.
  assert (Hcreate :
    (exists text, fst create = Returned (Some (NewError text))) /\
    (observed rd <> noPrivileges ->
     fst create
     = Returned (Some (NewError
         ("Privilege creation is not allowed for system schemas, schema="
          ++ name)))) /\
    statements (calls (snd create)) = [] /\
    existsb isCommit (calls (snd create)) = false).
  { subst create. open_hook. answer.
    destruct ((length (validateGrants rd) =? 0)%nat
              && (length (validateSchemaGrants rd) =? 0)%nat) eqn:Hval.
    - apply no_grants_iff in Hval. answer.
      repeat split; [eexists; reflexivity|intros Hne; contradiction].
    - do 3 answer. repeat split. eexists; reflexivity. }
  destruct Hcreate as (Htext & Hguard & Hnone & Hcommit).
  split; [exact Htext|]. split; [exact Hguard|]. split; [exact Hnone|].
  split; [exact Hcommit|].
  intros Hsome Hgroup Hacc.
  exact (update_sends D rd w w1 w2 w3 name g owner Hsome Hbegin Hschema
           Hgroup Hacc).
Qed.

End Guards.

(** ** The statements sent *)

Section Statements.

Variable D : Driver.

(** C3 (as amended): with at least one flag set and every statement
    accepted, Create sends one GRANT and one ALTER DEFAULT PRIVILEGES naming
    all set table-level flags, when there is one, and one GRANT naming all
    set schema-level flags, when there is one; nothing else. *)
Theorem create_statements (rd : ResourceData) (w w1 w2 w3 : World D)
  (s g : string) (o : Z) :
  let create := resourceRedshiftSchemaGroupPrivilegeCreate D (start D rd w) in
  observed rd <> noPrivileges ->
  drv_begin D w = (None, w1) ->
  drv_query D schemaInfoQuery [VInt (rd_schema_id rd)] w1
    = (inr [VString s; VInt o], w2) ->
  isSystemSchema o = false ->
  drv_query D groupNameQuery [VInt (rd_group_id rd)] w2
    = (inr [VString g], w3) ->
  (forall sql e, ~ In (CExec sql (Some e)) (calls (snd create))) ->
  statements (calls (snd create))
  = createStatements (keywords rd tableLevel) (keywords rd schemaLevelOnCreate)
      s g.
Proof.
  intros create Hsome Hbegin Hschema Hsys Hgroup. subst create.
  rewrite <- validateGrants_keywords, <- validateSchemaGrants_keywords.
  open_hook. answer. rewrite (some_grants rd Hsome). do 3 answer.
  through_executor; intros Hacc; try (now read_statements);
    exfalso; eapply Hacc; logged.
Qed.

Lemma length_tableStatements (changed grant : bool) (p s g : string) :
  length (tableStatements changed grant p s g) = if changed then 2 else 0.
Proof. now destruct changed, grant. Qed.

Lemma length_schemaStatements (changed grant : bool) (p s g : string) :
  length (schemaStatements changed grant p s g) = if changed then 1 else 0.
Proof. now destruct changed, grant. Qed.

Lemma length_updateStatements (rd : ResourceData) (s g : string) :
  length (updateStatements rd s g)
  = 2 * changedCount rd tableLevel + changedCount rd schemaLevelOnUpdate.
Proof.
  unfold updateStatements, changedCount, tableLevel, schemaLevelOnUpdate.
  rewrite !length_app, !length_tableStatements, !length_schemaStatements.
  cbn [filter fst].
  destruct (HasChange rd "select"), (HasChange rd "insert"),
    (HasChange rd "update"), (HasChange rd "delete"),
    (HasChange rd "references"), (HasChange rd "usage"),
    (HasChange rd "create"); reflexivity.
Qed.

(** C4: on Update with every statement accepted, the statements sent are
    the per-flag lists in visiting order: two for a changed table-level
    flag (GRANT or REVOKE on all tables, and the ALTER DEFAULT PRIVILEGES
    mirror), one for a changed schema-level flag, none for an unchanged
    flag; each per-flag function runs exactly its list. *)
Theorem update_statements (rd : ResourceData) (w w1 w2 w3 : World D)
  (s g : string) (o : Z) :
  let update := resourceRedshiftSchemaGroupPrivilegeUpdate D (start D rd w) in
  let sent := statements (calls (snd update)) in
  observed rd <> noPrivileges ->
  drv_begin D w = (None, w1) ->
  drv_query D schemaInfoQuery [VInt (rd_schema_id rd)] w1
    = (inr [VString s; VInt o], w2) ->
  drv_query D groupNameQuery [VInt (rd_group_id rd)] w2
    = (inr [VString g], w3) ->
  (forall sql e, ~ In (CExec sql (Some e)) (calls (snd update))) ->
  sent = updateStatements rd s g /\
  length sent
  = 2 * changedCount rd tableLevel + changedCount rd schemaLevelOnUpdate /\
  (forall attribute privilege st,
     updatePrivilege D attribute privilege s g st
     = execAll D (tableStatements (HasChange (d st) attribute)
                    (Get (d st) attribute) privilege s g) st) /\
  (forall attribute privilege st,
     updateSchemaPrivilege D attribute privilege s g st
     = execAll D (schemaStatements (HasChange (d st) attribute)
                    (Get (d st) attribute) privilege s g) st).
Proof.
  intros update sent Hsome Hbegin Hschema Hgroup Hacc.
  assert (Hsent : sent = updateStatements rd s g)
    by exact (update_sends D rd w w1 w2 w3 s g o Hsome Hbegin Hschema Hgroup
                Hacc).
  split; [exact Hsent|]. split.
  - rewrite Hsent. apply length_updateStatements.
  - split; intros attribute privilege st.
    + apply updatePrivilege_execAll.
    + apply updateSchemaPrivilege_execAll.
Qed.

Lemma updateStatements_unchanged (rd : ResourceData) (s g : string) :
  rd_state rd = rd_plan rd -> updateStatements rd s g = [].
Proof.
  intros H. unfold updateStatements, HasChange. rewrite H.
  now rewrite !Bool.eqb_reflx.
Qed.

(** C7: when the recorded state already equals the planned flags, Update
    finds no flag changed and sends no statement. *)
Theorem reapply_sends_nothing (rd : ResourceData) (w : World D) :
  rd_state rd = rd_plan rd ->
  (forall attribute, HasChange rd attribute = false) /\
  (forall s g, updateStatements rd s g = []) /\
  statements
    (calls (snd (resourceRedshiftSchemaGroupPrivilegeUpdate D (start D rd w))))
  = [].
Proof.
  intros Hsame. split; [|split].
  - intros attribute. unfold HasChange. rewrite Hsame.
    now rewrite Bool.eqb_reflx.
  - intros s g. now apply updateStatements_unchanged.
  - open_hook. repeat answer; try reflexivity.
    rewrite (updateStatements_unchanged rd _ _ Hsame).
    unfold tryOr, bind. tidy. unfold ret. now answer.
Qed.

End Statements.

(** ** Isolation: nothing shows outside a transaction before commit *)

Section Isolation.

Variable D : Driver.
Variable Visible : Type.
Variable committed : World D -> Visible.

Hypothesis begin_keeps :
  forall w, committed (snd (drv_begin D w)) = committed w.
Hypothesis exec_keeps :
  forall sql w, committed (snd (drv_exec D sql w)) = committed w.
Hypothesis query_keeps :
  forall sql args w, committed (snd (drv_query D sql args w)) = committed w.
Hypothesis rollback_keeps :
  forall w, committed (snd (drv_rollback D w)) = committed w.

Lemma execAll_keeps (stmts : list string) (st : St D) :
  committed (world (snd (execAll D stmts st))) = committed (world st).
Proof.
  revert st; induction stmts as [|sql rest IH]; intros st; [reflexivity|].
  cbn [execAll]. unfold bind, Exec. pose proof (exec_keeps sql (world st)) as K.
  destruct (drv_exec D sql (world st)) as [[e|] w1]; cbn [snd] in K |- *.
  - exact K.
  - rewrite IH. exact K.
Qed.

Ltac unchanged :=
  repeat match goal with
         | H : drv_begin D ?before = _ |- _ =>
             let K := fresh "K" in
             pose proof (begin_keeps before) as K; rewrite H in K;
             cbn [snd] in K; clear H
         | H : drv_query D ?sql ?args ?before = _ |- _ =>
             let K := fresh "K" in
             pose proof (query_keeps sql args before) as K; rewrite H in K;
             cbn [snd] in K; clear H
         end;
  tidy; rewrite ?rollback_keeps, ?execAll_keeps; tidy; congruence.

(** The executor's part of a hook, then [k] or the rollback. *)
Lemma guarded_run (stmts : list string) (k : M D outcome) (st : St D)
  (sql : string) (e : error) :
  (forall st', ~ In (CExec sql (Some e)) (calls st') ->
               ~ In (CExec sql (Some e)) (calls (snd (k st')))) ->
  ~ In (CExec sql (Some e)) (calls st) ->
  existsb isCommit (calls st) = false ->
  let run := tryOr (execAll D stmts) k st in
  In (CExec sql (Some e)) (calls (snd run)) ->
  fst run = Returned (Some e) /\
  (exists before rb,
     calls (snd run) = before ++ [CExec sql (Some e); CRollback rb]) /\
  existsb isCommit (calls (snd run)) = false /\
  committed (world (snd run)) = committed (world st).
Proof.
  intros Hk Hfresh Hnone run. subst run. rewrite tryOr_execAll.
  destruct (execAll_ran D stmts st) as (log & Hlog & Hran).
  pose proof (execAll_keeps stmts st) as Hkeep.
  destruct (fst (execAll D stmts st)) as [e'|].
  - rewrite rollbackAndReturn_run. tidy. rewrite Hlog. intros Hin.
    inversion Hran as [|pre post sql' e'' Hstmts Herr Hlogeq]; subst.
    locate Hin. injection Hin as -> ->.
    split; [reflexivity|]. split.
    { exists (calls st ++ executed pre),
        (fst (drv_rollback D (world (snd (execAll D (pre ++ sql :: post) st))))).
      now rewrite <- !app_assoc. }
    split; [rewrite !existsb_app, Hnone; scan_log|].
    rewrite rollback_keeps. exact Hkeep.
  - intros Hin. exfalso. eapply Hk; [|exact Hin].
    rewrite Hlog. inversion Hran; subst. intros H. locate H.
Qed.

(** C5: when a statement of the reconcile transaction is refused, the hook
    returns that statement's error, the rollback follows it at once
    (whatever the rollback itself answers), nothing is committed, and what
    the warehouse shows outside the transaction is what it showed before. *)
Theorem failed_statement_rolls_back (rd : ResourceData) (w : World D)
  (sql : string) (e : error) :
  let update := resourceRedshiftSchemaGroupPrivilegeUpdate D (start D rd w) in
  let create := resourceRedshiftSchemaGroupPrivilegeCreate D (start D rd w) in
  (In (CExec sql (Some e)) (calls (snd update)) ->
   fst update = Returned (Some e) /\
   (exists before rb,
      calls (snd update) = before ++ [CExec sql (Some e); CRollback rb]) /\
   existsb isCommit (calls (snd update)) = false /\
   committed (world (snd update)) = committed w) /\
  (In (CExec sql (Some e)) (calls (snd create)) ->
   fst create = Returned (Some e) /\
   (exists before rb,
      calls (snd create) = before ++ [CExec sql (Some e); CRollback rb]) /\
   existsb isCommit (calls (snd create)) = false /\
   committed (world (snd create)) = committed w).
Proof.
  split; open_hook; repeat answer;
    try (intros Hin; locate Hin; fail);
    match goal with
    | |- In _ (calls (snd (tryOr (execAll D ?stmts) ?k ?st))) -> _ =>
        intros Hin;
        destruct (guarded_run stmts k st sql e) as (H1 & H2 & H3 & H4);
        [ | | | exact Hin | ]
    end;
    try (repeat split; try assumption; rewrite H4; unchanged);
    try (tidy; intros H; locate H; fail);
    try reflexivity.
  - intros st' Hfresh. rewrite commitAndReturn_run. tidy. intros H. locate H.
  - intros st' Hfresh. unfold tryOr, bind.
    repeat answer; intros H; locate H.
Qed.

End Isolation.

(** ** Read-back before commit *)

Section ReadBack.

Variable D : Driver.

(** C6 (as amended): Create commits only right after a read-back that went
    through, made on the transaction while it is still open; a failed
    read-back is rolled back and its error returned, without commit.
    Update runs no read-back: when it commits, the commit follows its
    statements directly. *)
Theorem create_commits_after_read_back (rd : ResourceData) (w : World D) :
  let create := resourceRedshiftSchemaGroupPrivilegeCreate D (start D rd w) in
  let update := resourceRedshiftSchemaGroupPrivilegeUpdate D (start D rd w) in
  let args := [VInt (rd_schema_id rd); VInt (rd_group_id rd)] in
  (forall c, In (CCommit c) (calls (snd create)) ->
     exists before r1 r2,
       calls (snd create)
       = CBegin None :: before
           ++ [CQueryRow OnTx hasPrivilegeQuery args r1;
               CQueryRow OnTx hasSchemaPrivilegeQuery args r2;
               CCommit c] /\
       otherThanNoRows (fst (Scan5 r1)) = None /\
       otherThanNoRows (fst (Scan2 r2)) = None /\
       existsb isRollback before = false /\
       existsb isCommit before = false /\
       existsb isBegin before = false) /\
  (forall r e,
     (In (CQueryRow OnTx hasPrivilegeQuery args r) (calls (snd create)) /\
      otherThanNoRows (fst (Scan5 r)) = Some e) \/
     (In (CQueryRow OnTx hasSchemaPrivilegeQuery args r) (calls (snd create)) /\
      otherThanNoRows (fst (Scan2 r)) = Some e) ->
     fst create = Returned (Some e) /\
     existsb isRollback (calls (snd create)) = true /\
     existsb isCommit (calls (snd create)) = false) /\
  (fst create = Returned None -> In (CCommit None) (calls (snd create))) /\
  (forall c, In (CCommit c) (calls (snd update)) ->
     exists s g r1 r2,
       calls (snd update)
       = [CBegin None;
          CQueryRow OnTx schemaInfoQuery [VInt (rd_schema_id rd)] r1;
          CQueryRow OnTx groupNameQuery [VInt (rd_group_id rd)] r2]
         ++ executed (updateStatements rd s g) ++ [CCommit c]) /\
  (forall h queryArgs r,
     ~ In (CQueryRow h hasPrivilegeQuery queryArgs r) (calls (snd update)) /\
     ~ In (CQueryRow h hasSchemaPrivilegeQuery queryArgs r)
         (calls (snd update))).
Proof.
  cbv zeta. split; [|split; [|split; [|split]]].
  - intros c. open_hook. repeat answer; try (intros Hin; locate Hin; fail).
    through_executor; intros Hin; locate Hin.
    injection Hin as <-.
    eexists (_ :: _ :: executed _), _, _.
    split; [cbn [app]; rewrite <- !app_assoc; reflexivity|].
    repeat split; try assumption; scan_log.
  - intros r e.
    remember (otherThanNoRows (fst (Scan5 r))) as first eqn:Hfirst.
    remember (otherThanNoRows (fst (Scan2 r))) as second eqn:Hsecond.
    open_hook. repeat answer;
      try (intros [[Hin _]|[Hin _]]; locate Hin; fail).
    through_executor; intros [[Hin Hr]|[Hin Hr]]; locate Hin;
      injection Hin as <-; try congruence;
      (split; [congruence|split; scan_log]).
  - open_hook. repeat answer; try discriminate.
    through_executor; try discriminate.
    intros Hret. injection Hret as Hret. rewrite Hret. logged.
  - intros c. apply update_commit_log.
  - intros h queryArgs r. apply update_never_reads_back.
Qed.

End ReadBack.

(** ** The catalog reader, the identifier and Exists *)

Section Catalog.

Variable D : Driver.

Lemma otherThanNoRows_spec (err : option error) (e : error) :
  otherThanNoRows err = Some e <-> err = Some e /\ e <> ErrNoRows.
Proof.
  unfold otherThanNoRows. destruct err as [[| |]|]; split;
    try (intros [H1 H2]); try intros H; try discriminate;
    try (injection H as <-); try (injection H1 as <-);
    try (split; [reflexivity|discriminate]); try reflexivity;
    try contradiction.
Qed.

(** What the reader makes of [sql.ErrNoRows]: when both scans report it the
    read succeeds with every flag false and without rollback; the read fails
    only on an error other than no-rows, it does fail on one, and then it
    has rolled back. *)
Theorem read_no_row_is_no_privilege (st : St D) :
  let args := [VInt (rd_schema_id (d st)); VInt (rd_group_id (d st))] in
  let q1 := drv_query D hasPrivilegeQuery args (world st) in
  let q2 := drv_query D hasSchemaPrivilegeQuery args (snd q1) in
  let read := readRedshiftSchemaGroupPrivilege D st in
  (fst q1 = inl ErrNoRows -> fst q2 = inl ErrNoRows ->
   fst read = None /\
   observed (d (snd read)) = noPrivileges /\
   calls (snd read)
   = calls st ++ [CQueryRow OnTx hasPrivilegeQuery args (inl ErrNoRows);
                  CQueryRow OnTx hasSchemaPrivilegeQuery args (inl ErrNoRows)])
  /\
  (forall e, fst read = Some e ->
     e <> ErrNoRows /\
     (fst (Scan5 (fst q1)) = Some e \/ fst (Scan2 (fst q2)) = Some e) /\
     exists before rb, calls (snd read) = before ++ [CRollback rb]) /\
  (forall e, e <> ErrNoRows ->
     fst q1 = inl e \/
     (otherThanNoRows (fst (Scan5 (fst q1))) = None /\ fst q2 = inl e) ->
     fst read = Some e).
Proof.
  cbv zeta. rewrite read_run. cbv zeta. tidy.
  destruct (drv_query D hasPrivilegeQuery _ (world st)) as [r1 w1]. tidy.
  destruct (drv_query D hasSchemaPrivilegeQuery _ w1) as [r2 w2]. tidy.
  split; [|split].
  - intros -> ->. cbn. repeat split.
  - intros e.
    destruct (otherThanNoRows (fst (Scan5 r1))) as [e1|] eqn:H1;
      [|destruct (otherThanNoRows (fst (Scan2 r2))) as [e2|] eqn:H2];
      tidy; intros He; try discriminate; injection He as ->.
    + apply otherThanNoRows_spec in H1 as [H1 Hne].
      split; [exact Hne|]. split; [now left|].
      eexists (_ ++ [_]), _. now rewrite <- app_assoc.
    + apply otherThanNoRows_spec in H2 as [H2 Hne].
      split; [exact Hne|]. split; [now right|].
      eexists (_ ++ [_; _]), _. now rewrite <- app_assoc.
  - intros e Hne [->|[-> ->]]; cbn [Scan5 Scan2 fst otherThanNoRows].
    + destruct e; try reflexivity. contradiction.
    + destruct e; try reflexivity. contradiction.
Qed.

(** C8: for a pair that matches nothing, the first privilege query, five
    aggregates over an empty selection, answers one row of NULLs and not
    [sql.ErrNoRows].  On that row the reader fails with the error of the
    scan, an error other than no-rows: it rolls back, does not make the
    second query and sets no flag; Read hands that error up after a second
    rollback and commits nothing. *)
Theorem unmatched_pair_fails_the_read (st : St D) (after : World D)
  (rd : ResourceData) (w w1 w2 : World D) :
  let args := fun rd => [VInt (rd_schema_id rd); VInt (rd_group_id rd)] in
  let nulls : error + list value :=
    inr [VNull; VNull; VNull; VNull; VNull] in
  let reader := readRedshiftSchemaGroupPrivilege D st in
  let read := resourceRedshiftSchemaGroupPrivilegeRead D (start D rd w) in
  (drv_query D hasPrivilegeQuery (args (d st)) (world st) = (nulls, after) ->
   fst reader = Some scanError /\
   scanError <> ErrNoRows /\
   d (snd reader) = d st /\
   calls (snd reader)
   = calls st ++ [CQueryRow OnTx hasPrivilegeQuery (args (d st)) nulls;
                  CRollback (fst (drv_rollback D after))]) /\
  (drv_begin D w = (None, w1) ->
   drv_query D hasPrivilegeQuery (args rd) w1 = (nulls, w2) ->
   fst read = Returned (Some scanError) /\
   d (snd read) = rd /\
   existsb isCommit (calls (snd read)) = false /\
   exists rb1 rb2,
     calls (snd read)
     = [CBegin None; CQueryRow OnTx hasPrivilegeQuery (args rd) nulls;
        CRollback rb1; CRollback rb2]).
Proof.
  cbv zeta. split.
  - intros Hquery. rewrite read_run. cbv zeta. tidy. rewrite Hquery. tidy.
    cbn [Scan5 scanBools scanBool fst snd otherThanNoRows scanError
         isErrNoRows].
    split; [reflexivity|]. split; [discriminate|]. split; reflexivity.
  - intros Hbegin Hquery. open_hook. answer.
    unfold tryOr, bind. rewrite read_run. cbv zeta. tidy. rewrite Hquery.
    tidy.
    cbn [Scan5 scanBools scanBool fst snd otherThanNoRows scanError
         isErrNoRows].
    unfold Rollback, bind, ret. tidy.
    repeat answer.
    split; [reflexivity|]. split; [reflexivity|]. split; [reflexivity|].
    now eexists _, _.
Qed.

(** C10: both Exists hooks report a missing row as absence without error,
    any other error as that error, and a row as presence. *)
Theorem exists_reports_absence (st : St D) :
  let id := [VString (Id (d st))] in
  let privilege := fst (drv_query D existsPrivilegeQuery id (world st)) in
  let schema := fst (drv_query D existenceQuery id (world st)) in
  (privilege = inl ErrNoRows ->
   fst (resourceRedshiftSchemaGroupPrivilegeExists D st) = (false, None)) /\
  (forall e, privilege = inl e -> e <> ErrNoRows ->
   fst (resourceRedshiftSchemaGroupPrivilegeExists D st) = (false, Some e)) /\
  (forall found, privilege = inr [VString found] ->
   fst (resourceRedshiftSchemaGroupPrivilegeExists D st) = (true, None)) /\
  (schema = inl ErrNoRows ->
   fst (resourceRedshiftSchemaExists D st) = (false, None)) /\
  (forall e, schema = inl e -> e <> ErrNoRows ->
   fst (resourceRedshiftSchemaExists D st) = (false, Some e)) /\
  (forall found, schema = inr [VString found] ->
   fst (resourceRedshiftSchemaExists D st) = (true, None)).
Proof.
  cbv zeta.
  unfold resourceRedshiftSchemaGroupPrivilegeExists,
    resourceRedshiftSchemaExists, bind, getD, QueryRow, ret. tidy.
  destruct (drv_query D existsPrivilegeQuery _ (world st)) as [r1 w1].
  destruct (drv_query D existenceQuery _ (world st)) as [r2 w2]. tidy.
  repeat split.
  - now intros ->.
  - intros e -> Hne. cbn. destruct e; try reflexivity. contradiction.
  - now intros found ->.
  - now intros ->.
  - intros e -> Hne. cbn. destruct e; try reflexivity. contradiction.
  - now intros found ->.
Qed.

Lemma Id_readBack (table : bool * bool * bool * bool * bool)
  (schemaLevel : bool * bool) (rd : ResourceData) :
  Id (readBack table schemaLevel rd) = Id rd.
Proof.
  now destruct table as [[[[sel upd] ins] del] ref], schemaLevel as [usa cre].
Qed.

(** C9: a successful Create leaves the identifier
    [<schema_id>_<group_id>] in decimal; Read, Update and Delete leave the
    identifier as it was; Exists hands the identifier to a query that
    compares it with [nsp.oid || '_' || pu.grosysid] in both its branches. *)
Theorem identifier_is_schema_and_group (rd : ResourceData) (w : World D)
  (st : St D) :
  let create := resourceRedshiftSchemaGroupPrivilegeCreate D (start D rd w) in
  (fst create = Returned None ->
   Id (d (snd create))
   = (Sprint (rd_schema_id rd) ++ "_" ++ Sprint (rd_group_id rd))%string) /\
  Id (d (snd (resourceRedshiftSchemaGroupPrivilegeRead D st))) = Id (d st) /\
  Id (d (snd (resourceRedshiftSchemaGroupPrivilegeUpdate D st))) = Id (d st) /\
  Id (d (snd (resourceRedshiftSchemaGroupPrivilegeDelete D st))) = Id (d st) /\
  calls (snd (resourceRedshiftSchemaGroupPrivilegeExists D st))
  = calls st
    ++ [CQueryRow OnDB existsPrivilegeQuery [VString (Id (d st))]
          (fst (drv_query D existsPrivilegeQuery [VString (Id (d st))]
                  (world st)))] /\
  occurrences "nsp.oid || '_' || pu.grosysid = $1" existsPrivilegeQuery = 2.
Proof.
  cbv zeta. repeat split.
  - open_hook. repeat answer; try discriminate.
    through_executor; try discriminate. intros _.
    now rewrite Id_readBack.
  - open_hook. repeat answer; try reflexivity.
    unfold tryOr, bind. repeat answer; now rewrite ?Id_readBack.
  - open_hook. repeat answer; try reflexivity.
    through_executor; reflexivity.
  - open_hook. repeat answer; try reflexivity.
    through_executor; reflexivity.
  - unfold resourceRedshiftSchemaGroupPrivilegeExists, bind, getD, QueryRow,
      ret. tidy.
    destruct (drv_query D existsPrivilegeQuery _ (world st)) as [r1 w1]. tidy.
    destruct (Scan1 r1) as [[e|] found]; [destruct (isErrNoRows e)|];
      reflexivity.
Qed.

End Catalog.

(** * On the scripted warehouse *)

Lemma scripted_begin_keeps (w : Scripted.warehouse) :
  Scripted.committed (snd (Scripted.begin w)) = Scripted.committed w.
Proof. reflexivity. Qed.

Lemma scripted_exec_keeps (sql : string) (w : Scripted.warehouse) :
  Scripted.committed (snd (Scripted.exec sql w)) = Scripted.committed w.
Proof.
  unfold Scripted.exec. now destruct (Scripted.lookup sql (Scripted.refused w)).
Qed.

Lemma scripted_query_keeps (sql : string) (args : list value)
  (w : Scripted.warehouse) :
  Scripted.committed (snd (Scripted.query sql args w)) = Scripted.committed w.
Proof.
  unfold Scripted.query. now destruct (Scripted.lookup sql (Scripted.answers w)).
Qed.

Lemma scripted_rollback_keeps (w : Scripted.warehouse) :
  Scripted.committed (snd (Scripted.rollback w)) = Scripted.committed w.
Proof. reflexivity. Qed.

Lemma Sprint_examples :
  Sprint 100 = "100" /\ Sprint 0 = "0" /\ Sprint (-7) = "-7".
Proof. repeat split. Qed.

(** ** Examples for the claims *)

(** C1, witness: schema 100, group 7, no flag set. *)
Lemma zero_privileges_rejected_witness :
  let rd := Scripted.resource 100 noPrivileges noPrivileges in
  let w := Scripted.fresh (Scripted.names "s" 100) [] in
  fst (resourceRedshiftSchemaGroupPrivilegeCreate Scripted.driver
         (start Scripted.driver rd w))
  = Returned (Some (NewError "Must have at least 1 privilege")).
Proof.
  intros rd w.
  apply (zero_privileges_rejected Scripted.driver rd w w); reflexivity.
Defined.

(** C1, counterexample: the rejection of an empty privilege set does reach
    the connection; a transaction is opened, and rolled back, first. *)
Lemma rejection_opens_transaction :
  let rd := Scripted.resource 100 noPrivileges noPrivileges in
  let w := Scripted.fresh (Scripted.names "s" 100) [] in
  observed rd = noPrivileges /\
  calls (snd (resourceRedshiftSchemaGroupPrivilegeCreate Scripted.driver
                (start Scripted.driver rd w)))
  = [CBegin None; CRollback None] /\
  calls (snd (resourceRedshiftSchemaGroupPrivilegeUpdate Scripted.driver
                (start Scripted.driver rd w)))
  = [CBegin None; CRollback None].
Proof. repeat split. Qed.

(** C2, witness: the catalog schema 11 owned by user 1, select requested. *)
Lemma system_schema_guard_witness :
  let rd := Scripted.resource 11 noPrivileges
              (Scripted.privileges true false false false false false false) in
  let w := Scripted.fresh (Scripted.names "pg_catalog" 1) [] in
  fst (resourceRedshiftSchemaGroupPrivilegeCreate Scripted.driver
         (start Scripted.driver rd w))
  = Returned (Some (NewError
      "Privilege creation is not allowed for system schemas, schema=pg_catalog"))
  /\
  statements (calls (snd (resourceRedshiftSchemaGroupPrivilegeCreate
                            Scripted.driver (start Scripted.driver rd w))))
  = [].
Proof.
  intros rd w.
  destruct (system_schema_guard Scripted.driver rd w w w w "pg_catalog" "g" 1
              eq_refl eq_refl eq_refl) as (_ & Hguard & Hnone & _).
  split; [apply Hguard; discriminate|exact Hnone].
Defined.

(** C2, counterexample: Update on the same catalog schema goes through,
    grants on it and commits. *)
Lemma update_grants_on_system_schema :
  let rd := Scripted.resource 11 noPrivileges
              (Scripted.privileges true false false false false false false) in
  let w := Scripted.fresh (Scripted.names "pg_catalog" 1) [] in
  let update := resourceRedshiftSchemaGroupPrivilegeUpdate Scripted.driver
                  (start Scripted.driver rd w) in
  isSystemSchema 1 = true /\
  fst update = Returned None /\
  statements (calls (snd update))
  = [ "GRANT SELECT ON ALL TABLES IN SCHEMA pg_catalog TO  GROUP g";
      "ALTER DEFAULT PRIVILEGES IN SCHEMA pg_catalog GRANT SELECT ON TABLES TO GROUP g" ] /\
  Scripted.committed (world (snd update)) = statements (calls (snd update)).
Proof. repeat split. Qed.

(** C3, witness: select and insert on schema [s] for group [g]. *)
Lemma create_statements_witness :
  let rd := Scripted.resource 100 noPrivileges
              (Scripted.privileges true true false false false false false) in
  let w := Scripted.fresh (Scripted.names "s" 100) [] in
  statements (calls (snd (resourceRedshiftSchemaGroupPrivilegeCreate
                            Scripted.driver (start Scripted.driver rd w))))
  = [ "GRANT SELECT,INSERT ON ALL TABLES IN SCHEMA s TO GROUP g";
      "ALTER DEFAULT PRIVILEGES IN SCHEMA s GRANT SELECT,INSERT ON TABLES TO GROUP g" ].
Proof.
  intros rd w.
  refine (eq_trans
    (create_statements Scripted.driver rd w w w w "s" "g" 100 _ _ _ _ _ _) _);
    try reflexivity.
  - discriminate.
  - intros sql e H. vm_compute in H. intuition discriminate.
Defined.

(** C3, counterexample: create and usage requested together go into one
    GRANT, not one GRANT each. *)
Lemma create_batches_schema_privileges :
  let rd := Scripted.resource 100 noPrivileges
              (Scripted.privileges false false false false false true true) in
  let w := Scripted.fresh (Scripted.names "s" 100) [] in
  let create := resourceRedshiftSchemaGroupPrivilegeCreate Scripted.driver
                  (start Scripted.driver rd w) in
  fst create = Returned None /\
  statements (calls (snd create))
  = [ "GRANT CREATE,USAGE ON SCHEMA s TO GROUP g" ] /\
  length (statements (calls (snd create))) = 1.
Proof. repeat split. Qed.

(** C4, witness: select was granted and is dropped, insert and usage are
    new; the other flags stay as they were. *)
Lemma update_statements_witness :
  let rd := Scripted.resource 100
              (Scripted.privileges true false false false false false false)
              (Scripted.privileges false true false false false false true) in
  let w := Scripted.fresh (Scripted.names "s" 100) [] in
  statements (calls (snd (resourceRedshiftSchemaGroupPrivilegeUpdate
                            Scripted.driver (start Scripted.driver rd w))))
  = [ "REVOKE SELECT ON ALL TABLES IN SCHEMA s FROM GROUP g";
      "ALTER DEFAULT PRIVILEGES IN SCHEMA s REVOKE SELECT ON TABLES FROM GROUP g";
      "GRANT INSERT ON ALL TABLES IN SCHEMA s TO  GROUP g";
      "ALTER DEFAULT PRIVILEGES IN SCHEMA s GRANT INSERT ON TABLES TO GROUP g";
      "GRANT USAGE ON SCHEMA s TO  GROUP g" ].
Proof.
  intros rd w.
  refine (eq_trans
    (proj1 (update_statements Scripted.driver rd w w w w "s" "g" 100
              _ _ _ _ _)) _);
    try reflexivity.
  - discriminate.
  - intros sql e H. vm_compute in H. intuition discriminate.
Defined.

(** C5, witness: an update of five statements whose third is refused. *)
Lemma failed_statement_rolls_back_witness :
  let refusal := DriverError "permission denied for schema s" in
  let third := "GRANT INSERT ON ALL TABLES IN SCHEMA s TO  GROUP g" in
  let rd := Scripted.resource 100 noPrivileges
              (Scripted.privileges true true false false false false true) in
  let w := Scripted.fresh (Scripted.names "s" 100) [(third, refusal)] in
  let update := resourceRedshiftSchemaGroupPrivilegeUpdate Scripted.driver
                  (start Scripted.driver rd w) in
  length (updateStatements rd "s" "g") = 5 /\
  nth_error (updateStatements rd "s" "g") 2 = Some third /\
  fst update = Returned (Some refusal) /\
  existsb isCommit (calls (snd update)) = false /\
  Scripted.committed (world (snd update)) = Scripted.committed w.
Proof.
  intros refusal third rd w update.
  assert (Hin : In (CExec third (Some refusal)) (calls (snd update)))
    by (vm_compute; auto 10).
  destruct (proj1 (failed_statement_rolls_back Scripted.driver (list string)
                     Scripted.committed scripted_begin_keeps
                     scripted_exec_keeps scripted_query_keeps
                     scripted_rollback_keeps rd w third refusal) Hin)
    as (Hret & _ & Hnone & Hkept).
  repeat split; assumption.
Defined.

(** C6, witness: a Create that commits has read back just before. *)
Lemma create_commits_after_read_back_witness :
  let rd := Scripted.resource 100 noPrivileges
              (Scripted.privileges true false false false false false false) in
  let w := Scripted.fresh (Scripted.names "s" 100) [] in
  let create := resourceRedshiftSchemaGroupPrivilegeCreate Scripted.driver
                  (start Scripted.driver rd w) in
  exists before r1 r2,
    calls (snd create)
    = CBegin None :: before
        ++ [CQueryRow OnTx hasPrivilegeQuery [VInt 100; VInt 7] r1;
            CQueryRow OnTx hasSchemaPrivilegeQuery [VInt 100; VInt 7] r2;
            CCommit None].
Proof.
  intros rd w create.
  assert (Hin : In (CCommit None) (calls (snd create)))
    by (vm_compute; auto 10).
  destruct (proj1 (create_commits_after_read_back Scripted.driver rd w)
              None Hin) as (before & r1 & r2 & Hlog & _).
  exists before, r1, r2. exact Hlog.
Defined.

(** C6, counterexample: an Update commits right after its statements; the
    privilege queries are not run at all. *)
Lemma update_commits_without_read_back :
  let rd := Scripted.resource 100 noPrivileges
              (Scripted.privileges true false false false false false false) in
  let w := Scripted.fresh (Scripted.names "s" 100) [] in
  let update := resourceRedshiftSchemaGroupPrivilegeUpdate Scripted.driver
                  (start Scripted.driver rd w) in
  fst update = Returned None /\
  calls (snd update)
  = [ CBegin None;
      CQueryRow OnTx schemaInfoQuery [VInt 100] (inr [VString "s"; VInt 100]);
      CQueryRow OnTx groupNameQuery [VInt 7] (inr [VString "g"]);
      CExec "GRANT SELECT ON ALL TABLES IN SCHEMA s TO  GROUP g" None;
      CExec "ALTER DEFAULT PRIVILEGES IN SCHEMA s GRANT SELECT ON TABLES TO GROUP g"
        None;
      CCommit None ] /\
  (forall args r,
     ~ In (CQueryRow OnTx hasPrivilegeQuery args r) (calls (snd update))) /\
  (forall args r,
     ~ In (CQueryRow OnTx hasSchemaPrivilegeQuery args r) (calls (snd update))).
Proof.
  repeat split; intros args r H; vm_compute in H; intuition discriminate.
Qed.

(** C7, witness: select and usage are recorded and planned again. *)
Lemma reapply_sends_nothing_witness :
  let granted := Scripted.privileges true false false false false false true in
  let rd := Scripted.resource 100 granted granted in
  let w := Scripted.fresh (Scripted.names "s" 100) [] in
  statements (calls (snd (resourceRedshiftSchemaGroupPrivilegeUpdate
                            Scripted.driver (start Scripted.driver rd w))))
  = [].
Proof.
  intros granted rd w.
  apply (reapply_sends_nothing Scripted.driver rd w). reflexivity.
Defined.

(** A warehouse that answers [sql.ErrNoRows] to both privilege queries. *)
Lemma read_no_row_is_no_privilege_witness :
  let rd := Scripted.resource 100 noPrivileges
              (Scripted.privileges true false false false false false false) in
  let w := Scripted.fresh (Scripted.names "s" 100) [] in
  let read := readRedshiftSchemaGroupPrivilege Scripted.driver
                (start Scripted.driver rd w) in
  fst read = None /\ observed (d (snd read)) = noPrivileges.
Proof.
  intros rd w read.
  destruct (proj1 (read_no_row_is_no_privilege Scripted.driver
                     (start Scripted.driver rd w)) eq_refl eq_refl)
    as (Hret & Hflags & _).
  split; assumption.
Defined.

(** C8, witness: group 7 has no default privileges on schema 100, so the
    aggregates of the first privilege query come back as NULLs; select is
    planned. *)
Lemma unmatched_pair_fails_the_read_witness :
  let rd := Scripted.resource 100 noPrivileges
              (Scripted.privileges true false false false false false false) in
  let w := Scripted.fresh
             [ (hasPrivilegeQuery,
                inr [VNull; VNull; VNull; VNull; VNull]) ] [] in
  let read := resourceRedshiftSchemaGroupPrivilegeRead Scripted.driver
                (start Scripted.driver rd w) in
  fst read = Returned (Some scanError) /\
  d (snd read) = rd /\
  existsb isCommit (calls (snd read)) = false.
Proof.
  intros rd w read.
  destruct (proj2 (unmatched_pair_fails_the_read Scripted.driver
                     (start Scripted.driver rd w) w rd w w w)
              eq_refl eq_refl)
    as (Hret & Hkept & Hnone & _).
  split; [exact Hret|]. split; [exact Hkept|exact Hnone].
Defined.

(** The same warehouse under a Create that asks for usage alone: the GRANT
    is sent and accepted, the read-back fails on the NULLs, and nothing is
    committed. *)
Lemma usage_only_create_fails_on_read_back :
  let rd := Scripted.resource 100 noPrivileges
              (Scripted.privileges false false false false false false true) in
  let w := Scripted.fresh
             (Scripted.names "s" 100
              ++ [ (hasPrivilegeQuery,
                    inr [VNull; VNull; VNull; VNull; VNull]) ]) [] in
  let create := resourceRedshiftSchemaGroupPrivilegeCreate Scripted.driver
                  (start Scripted.driver rd w) in
  fst create = Returned (Some scanError) /\
  statements (calls (snd create)) = ["GRANT USAGE ON SCHEMA s TO GROUP g"] /\
  existsb isCommit (calls (snd create)) = false /\
  Scripted.committed (world (snd create)) = [].
Proof. repeat split. Qed.

(** C9, witness: schema 100 and group 7 give the identifier [100_7]. *)
Lemma identifier_is_schema_and_group_witness :
  let rd := Scripted.resource 100 noPrivileges
              (Scripted.privileges true false false false false false false) in
  let w := Scripted.fresh (Scripted.names "s" 100) [] in
  Id (d (snd (resourceRedshiftSchemaGroupPrivilegeCreate Scripted.driver
                (start Scripted.driver rd w))))
  = "100_7".
Proof.
  intros rd w.
  exact (proj1 (identifier_is_schema_and_group Scripted.driver rd w
                  (start Scripted.driver rd w)) eq_refl).
Defined.

(** C10, witness: no row, a failed query, and a row. *)
Lemma exists_reports_absence_witness :
  let rd := Scripted.resource 100 noPrivileges noPrivileges in
  let broken := DriverError "connection reset" in
  let hook w := fst (resourceRedshiftSchemaGroupPrivilegeExists Scripted.driver
                       (start Scripted.driver rd w)) in
  hook (Scripted.fresh [] []) = (false, None) /\
  hook (Scripted.fresh [(existsPrivilegeQuery, inl broken)] [])
  = (false, Some broken) /\
  hook (Scripted.fresh [(existsPrivilegeQuery, inr [VString "100_7"])] [])
  = (true, None).
Proof.
  intros rd broken hook. split; [|split].
  - apply (exists_reports_absence Scripted.driver
             (start Scripted.driver rd (Scripted.fresh [] []))).
    reflexivity.
  - apply (exists_reports_absence Scripted.driver
             (start Scripted.driver rd
                (Scripted.fresh [(existsPrivilegeQuery, inl broken)] []))
             ); [reflexivity|discriminate].
  - apply (proj1 (proj2 (proj2 (exists_reports_absence Scripted.driver
             (start Scripted.driver rd
                (Scripted.fresh
                   [(existsPrivilegeQuery, inr [VString "100_7"])] [])))))
             "100_7").
    reflexivity.
Defined.

(** * Further properties of the privilege hooks *)

Section MoreHooks.

Variable D : Driver.

Lemma observed_readBack (table : bool * bool * bool * bool * bool)
  (schemaLevel : bool * bool) (rd : ResourceData) :
  observed (readBack table schemaLevel rd) = flagsRead table schemaLevel.
Proof.
  now destruct table as [[[[sel upd] ins] del] ref], schemaLevel as [usa cre].
Qed.

Lemma scanBools_flagColumns (bs : list bool) :
  scanBools (map flagColumn bs) = Some bs.
Proof.
  induction bs as [|b bs IH]; [reflexivity|].
  cbn [map scanBools]. rewrite IH. now destruct b.
Qed.

(** X1: a read that goes through stores what the two scans delivered, column
    by column: select, update, insert, delete, references from the first
    query, usage, create from the second; the planned flags play no part. *)
Theorem read_stores_scanned_flags (st : St D)
  (sel upd ins del ref usa cre : bool) :
  let args := [VInt (rd_schema_id (d st)); VInt (rd_group_id (d st))] in
  let q1 := drv_query D hasPrivilegeQuery args (world st) in
  let q2 := drv_query D hasSchemaPrivilegeQuery args (snd q1) in
  let read := readRedshiftSchemaGroupPrivilege D st in
  (fst read = None ->
   observed (d (snd read))
   = flagsRead (snd (Scan5 (fst q1))) (snd (Scan2 (fst q2)))) /\
  (fst q1 = inr (map flagColumn [sel; upd; ins; del; ref]) ->
   fst q2 = inr (map flagColumn [usa; cre]) ->
   fst read = None /\
   observed (d (snd read))
   = {| ps_select := sel; ps_insert := ins; ps_update := upd;
        ps_delete := del; ps_references := ref; ps_create := cre;
        ps_usage := usa |}) /\
  (fst q1 = inl ErrNoRows ->
   fst q2 = inr (map flagColumn [usa; cre]) ->
   fst read = None /\
   observed (d (snd read))
   = {| ps_select := false; ps_insert := false; ps_update := false;
        ps_delete := false; ps_references := false; ps_create := cre;
        ps_usage := usa |}).
Proof.
  cbv zeta. rewrite read_run. cbv zeta. tidy.
  destruct (drv_query D hasPrivilegeQuery _ (world st)) as [r1 w1]. tidy.
  destruct (drv_query D hasSchemaPrivilegeQuery _ w1) as [r2 w2]. tidy.
  split; [|split].
  - destruct (otherThanNoRows (fst (Scan5 r1)));
      [discriminate|destruct (otherThanNoRows (fst (Scan2 r2)))];
      [discriminate|].
    intros _. tidy. apply observed_readBack.
  - intros -> ->. unfold Scan5, Scan2. rewrite !scanBools_flagColumns.
    cbn [fst snd otherThanNoRows d]. split; [reflexivity|].
    apply observed_readBack.
  - intros -> ->. unfold Scan5, Scan2. rewrite !scanBools_flagColumns.
    cbn [fst snd otherThanNoRows isErrNoRows d]. split; [reflexivity|].
    apply observed_readBack.
Qed.

(** X2: a successful Create or Read leaves in the resource data the flags
    its read-back scanned, whatever was planned. *)
Theorem hooks_store_read_back (rd : ResourceData) (w : World D) :
  let args := [VInt (rd_schema_id rd); VInt (rd_group_id rd)] in
  let create := resourceRedshiftSchemaGroupPrivilegeCreate D (start D rd w) in
  let read := resourceRedshiftSchemaGroupPrivilegeRead D (start D rd w) in
  (fst create = Returned None ->
   exists before r1 r2,
     calls (snd create)
     = before ++ [CQueryRow OnTx hasPrivilegeQuery args r1;
                  CQueryRow OnTx hasSchemaPrivilegeQuery args r2;
                  CCommit None] /\
     observed (d (snd create))
     = flagsRead (snd (Scan5 r1)) (snd (Scan2 r2))) /\
  (fst read = Returned None ->
   exists r1 r2,
     calls (snd read)
     = [CBegin None;
        CQueryRow OnTx hasPrivilegeQuery args r1;
        CQueryRow OnTx hasSchemaPrivilegeQuery args r2;
        CCommit None] /\
     observed (d (snd read))
     = flagsRead (snd (Scan5 r1)) (snd (Scan2 r2))).
Proof.
  cbv zeta. split.
  - open_hook. repeat answer; try discriminate.
    through_executor; try discriminate.
    intros Hret. injection Hret as ->.
    eexists (_ :: _ :: _ :: executed _), _, _.
    split; [cbn [app]; rewrite <- !app_assoc; reflexivity|].
    apply observed_readBack.
  - open_hook. repeat answer; try discriminate.
    unfold tryOr, bind. repeat answer; try discriminate.
    intros Hret. injection Hret as ->.
    eexists _, _. split; [reflexivity|]. apply observed_readBack.
Qed.

(** X3: when the transaction cannot be opened, each of Create, Read, Update
    and Delete panics with the error of Begin, having made no other call
    and leaving the resource data as it was. *)
Theorem begin_failure_panics (st : St D) (e : error) (w1 : World D) :
  drv_begin D (world st) = (Some e, w1) ->
  let after := {| d := d st; world := w1;
                  calls := calls st ++ [CBegin (Some e)] |} in
  resourceRedshiftSchemaGroupPrivilegeCreate D st = (Panicked e, after) /\
  resourceRedshiftSchemaGroupPrivilegeRead D st = (Panicked e, after) /\
  resourceRedshiftSchemaGroupPrivilegeUpdate D st = (Panicked e, after) /\
  resourceRedshiftSchemaGroupPrivilegeDelete D st = (Panicked e, after).
Proof.
  intros Hbegin. open_hook. rewrite Hbegin. repeat split.
Qed.

(** X4: a schema identifier that does not resolve, be it for want of a row,
    stops Create, Update and Delete with the lookup's error after a
    rollback; no statement is sent and the group is not looked up. *)
Theorem unresolved_schema_aborts (rd : ResourceData) (w w1 w2 : World D)
  (r : error + list value) (e : error) :
  drv_begin D w = (None, w1) ->
  drv_query D schemaInfoQuery [VInt (rd_schema_id rd)] w1 = (r, w2) ->
  fst (ScanNameOwner r) = Some e ->
  let log := [CBegin None;
              CQueryRow OnTx schemaInfoQuery [VInt (rd_schema_id rd)] r;
              CRollback (fst (drv_rollback D w2))] in
  let create := resourceRedshiftSchemaGroupPrivilegeCreate D (start D rd w) in
  let update := resourceRedshiftSchemaGroupPrivilegeUpdate D (start D rd w) in
  let delete := resourceRedshiftSchemaGroupPrivilegeDelete D (start D rd w) in
  (r = inl ErrNoRows -> e = ErrNoRows) /\
  (observed rd <> noPrivileges ->
   fst create = Returned (Some e) /\ calls (snd create) = log) /\
  (observed rd <> noPrivileges ->
   fst update = Returned (Some e) /\ calls (snd update) = log) /\
  fst delete = Returned (Some e) /\ calls (snd delete) = log.
Proof.
  intros Hbegin Hquery Hscan. cbv zeta. split.
  { intros ->. cbn in Hscan. now injection Hscan as <-. }
  split; [|split].
  - intros Hsome. open_hook. answer. rewrite (some_grants rd Hsome). answer.
    destruct (ScanNameOwner r) as [[e'|] [s o]]; [|discriminate].
    injection Hscan as ->. answer. now split.
  - intros Hsome. open_hook. answer. rewrite (some_grants rd Hsome). answer.
    destruct (ScanNameOwner r) as [[e'|] [s o]]; [|discriminate].
    injection Hscan as ->. answer. now split.
  - open_hook. do 2 answer.
    destruct (ScanNameOwner r) as [[e'|] [s o]]; [|discriminate].
    injection Hscan as ->. answer. now split.
Qed.

(** X5: Delete, once both names resolve and no statement is refused, sends
    the three REVOKE ALL statements in order, whatever the flags and the
    owner of the schema are, then commits and returns what Commit
    answers. *)
Theorem delete_statements (rd : ResourceData) (w w1 w2 w3 : World D)
  (s g : string) (o : Z) :
  let delete := resourceRedshiftSchemaGroupPrivilegeDelete D (start D rd w) in
  drv_begin D w = (None, w1) ->
  drv_query D schemaInfoQuery [VInt (rd_schema_id rd)] w1
    = (inr [VString s; VInt o], w2) ->
  drv_query D groupNameQuery [VInt (rd_group_id rd)] w2
    = (inr [VString g], w3) ->
  (forall sql e, ~ In (CExec sql (Some e)) (calls (snd delete))) ->
  exists c,
    fst delete = Returned c /\
    calls (snd delete)
    = [CBegin None;
       CQueryRow OnTx schemaInfoQuery [VInt (rd_schema_id rd)]
         (inr [VString s; VInt o]);
       CQueryRow OnTx groupNameQuery [VInt (rd_group_id rd)]
         (inr [VString g])]
      ++ executed
           [ ("REVOKE ALL ON  ALL TABLES IN SCHEMA " ++ s ++ " FROM GROUP "
              ++ g)%string;
             ("ALTER DEFAULT PRIVILEGES IN SCHEMA " ++ s
              ++ " REVOKE ALL ON TABLES FROM GROUP " ++ g)%string;
             ("REVOKE ALL ON SCHEMA " ++ s ++ " FROM GROUP " ++ g)%string ]
      ++ [CCommit c].
Proof.
  intros delete Hbegin Hschema Hgroup. subst delete.
  open_hook. do 3 answer.
  through_executor; intros Hacc.
  - exfalso. eapply Hacc. logged.
  - eexists. split; reflexivity.
Qed.

(** X6: a statement of Delete that is refused ends the hook at once: its
    error is returned, the rollback follows it in the log and nothing is
    committed. *)
Theorem delete_failure_rolls_back (rd : ResourceData) (w : World D)
  (sql : string) (e : error) :
  let delete := resourceRedshiftSchemaGroupPrivilegeDelete D (start D rd w) in
  In (CExec sql (Some e)) (calls (snd delete)) ->
  fst delete = Returned (Some e) /\
  (exists before rb,
     calls (snd delete) = before ++ [CExec sql (Some e); CRollback rb]) /\
  existsb isCommit (calls (snd delete)) = false.
Proof.
  open_hook. repeat answer; try (intros Hin; locate Hin; fail).
  through_executor; intros Hin; locate Hin.
  injection Hin as -> ->.
  split; [reflexivity|]. split.
  - eexists (_ :: _ :: _ :: executed _), _. cbn [app].
    now rewrite <- !app_assoc.
  - scan_log.
Qed.

End MoreHooks.

Section MoreHooks2.

Variable D : Driver.

Lemma readBack_SetId (table : bool * bool * bool * bool * bool)
  (schemaLevel : bool * bool) (v : string) (rd : ResourceData) :
  readBack table schemaLevel (SetId v rd)
  = SetId v (readBack table schemaLevel rd).
Proof.
  now destruct table as [[[[sel upd] ins] del] ref], schemaLevel as [usa cre].
Qed.

(** X7: Read and Import never consult the identifier: the privilege
    queries are made with the [schema_id] and [group_id] attributes, so two
    runs that differ in the identifier alone make the same calls, end the
    same way and store the same flags. *)
Theorem read_ignores_identifier (rd : ResourceData) (w : World D)
  (id : string) :
  let read := resourceRedshiftSchemaGroupPrivilegeRead D (start D rd w) in
  let read' :=
    resourceRedshiftSchemaGroupPrivilegeRead D (start D (SetId id rd) w) in
  let import :=
    resourceRedshiftSchemaGroupPrivilegeImport D (start D rd w) in
  let import' :=
    resourceRedshiftSchemaGroupPrivilegeImport D (start D (SetId id rd) w) in
  fst read' = fst read /\
  calls (snd read') = calls (snd read) /\
  world (snd read') = world (snd read) /\
  d (snd read') = SetId id (d (snd read)) /\
  snd (fst import') = snd (fst import) /\
  fst (fst import') = map (SetId id) (fst (fst import)) /\
  calls (snd import') = calls (snd import) /\
  (forall h sql args r,
     In (CQueryRow h sql args r) (calls (snd import)) ->
     args = [VInt (rd_schema_id rd); VInt (rd_group_id rd)]).
Proof.
  cbv zeta. unfold resourceRedshiftSchemaGroupPrivilegeImport.
  open_hook. answer.
  { repeat match goal with |- _ /\ _ => split end; try reflexivity.
    intros h sql args r H. locate H. }
  unfold tryOr, bind. rewrite !read_run. cbv zeta. tidy.
  repeat answer; unfold ret, getD; tidy; rewrite ?readBack_SetId;
    try match goal with
        | |- context [match fst (drv_commit D ?w') with _ => _ end] =>
            destruct (fst (drv_commit D w'))
        end;
    tidy;
    repeat match goal with |- _ /\ _ => split end; try reflexivity;
    intros h sql args r' H; locate H; now injection H as <- <- <- <-.
Qed.

(** X8: Create writes the identifier just before its read-back and at no
    other point: the identifier is [<schema_id>_<group_id>] once the first
    privilege query has been made, also when the read-back or the commit
    then fails, and is untouched when Create stops earlier. *)
Theorem create_sets_identifier_before_read_back (rd : ResourceData)
  (w : World D) :
  let args := [VInt (rd_schema_id rd); VInt (rd_group_id rd)] in
  let create := resourceRedshiftSchemaGroupPrivilegeCreate D (start D rd w) in
  ((exists r, In (CQueryRow OnTx hasPrivilegeQuery args r)
                 (calls (snd create))) ->
   Id (d (snd create))
   = (Sprint (rd_schema_id rd) ++ "_" ++ Sprint (rd_group_id rd))%string) /\
  ((forall r, ~ In (CQueryRow OnTx hasPrivilegeQuery args r)
                  (calls (snd create))) ->
   d (snd create) = rd).
Proof.
  cbv zeta. split.
  - open_hook. repeat answer; try (intros [r' Hin]; locate Hin; fail).
    through_executor; intros [r' Hin]; try (locate Hin; fail);
      now rewrite ?Id_readBack.
  - open_hook. repeat answer; try reflexivity.
    through_executor; intros Hnone; try reflexivity;
      exfalso; eapply Hnone; logged.
Qed.

(** X9: Update, Delete and the two Exists hooks never write the resource
    data; an Exists hook makes exactly one call, a QueryRow on the
    connection itself with the identifier as its argument, and opens no
    transaction. *)
Theorem hooks_leave_resource_data (st : St D) :
  d (snd (resourceRedshiftSchemaGroupPrivilegeUpdate D st)) = d st /\
  d (snd (resourceRedshiftSchemaGroupPrivilegeDelete D st)) = d st /\
  d (snd (resourceRedshiftSchemaGroupPrivilegeExists D st)) = d st /\
  d (snd (resourceRedshiftSchemaExists D st)) = d st /\
  (exists r,
     calls (snd (resourceRedshiftSchemaGroupPrivilegeExists D st))
     = calls st ++ [CQueryRow OnDB existsPrivilegeQuery
                      [VString (Id (d st))] r]) /\
  (exists r,
     calls (snd (resourceRedshiftSchemaExists D st))
     = calls st ++ [CQueryRow OnDB existenceQuery [VString (Id (d st))] r]).
Proof.
  repeat split.
  - open_hook. repeat answer; try reflexivity. through_executor; reflexivity.
  - open_hook. repeat answer; try reflexivity. through_executor; reflexivity.
  - open_hook. repeat answer; reflexivity.
  - open_hook. repeat answer; reflexivity.
  - open_hook. answer. eexists.
    destruct (Scan1 r) as [[e|] found]; [destruct (isErrNoRows e)|];
      reflexivity.
  - open_hook. answer. eexists.
    destruct (Scan1 r) as [[e|] found]; [destruct (isErrNoRows e)|];
      reflexivity.
Qed.

(** X10: whatever a hook logs as Commit is the last call of its run, comes
    after no rollback and no other commit, and its answer is what the hook
    returns: a commit error is handed up as it is, without rollback. *)
Theorem commit_ends_the_run (rd : ResourceData) (w : World D)
  (c : option error) :
  let closes (run : outcome * St D) :=
    In (CCommit c) (calls (snd run)) ->
    fst run = Returned c /\
    exists before,
      calls (snd run) = before ++ [CCommit c] /\
      existsb isRollback before = false /\
      existsb isCommit before = false in
  closes (resourceRedshiftSchemaGroupPrivilegeCreate D (start D rd w)) /\
  closes (resourceRedshiftSchemaGroupPrivilegeRead D (start D rd w)) /\
  closes (resourceRedshiftSchemaGroupPrivilegeUpdate D (start D rd w)) /\
  closes (resourceRedshiftSchemaGroupPrivilegeDelete D (start D rd w)).
Proof.
  cbv zeta. split; [|split; [|split]].
  - open_hook. repeat answer; try (intros Hin; locate Hin; fail).
    through_executor; intros Hin; locate Hin. injection Hin as <-.
    split; [reflexivity|].
    eexists (_ :: _ :: _ :: executed _ ++ [_; _]).
    split; [cbn [app]; rewrite <- !app_assoc; reflexivity|].
    split; scan_log.
  - open_hook. repeat answer; try (intros Hin; locate Hin; fail).
    unfold tryOr, bind. repeat answer; intros Hin; locate Hin.
    injection Hin as <-. split; [reflexivity|].
    eexists [_; _; _]. repeat split.
  - open_hook. repeat answer; try (intros Hin; locate Hin; fail).
    through_executor; intros Hin; locate Hin. injection Hin as <-.
    split; [reflexivity|].
    eexists (_ :: _ :: _ :: executed _).
    split; [reflexivity|]. split; scan_log.
  - open_hook. repeat answer; try (intros Hin; locate Hin; fail).
    through_executor; intros Hin; locate Hin. injection Hin as <-.
    split; [reflexivity|].
    eexists (_ :: _ :: _ :: executed _).
    split; [reflexivity|]. split; scan_log.
Qed.

(** X11: a read-back that fails is rolled back twice, once by the reader
    and once by the hook that called it: the log of such a Create or Read
    ends with two Rollback calls, the only ones of the run. *)
Theorem failed_read_back_rolls_back_twice (rd : ResourceData) (w : World D)
  (r : error + list value) (e : error) :
  let args := [VInt (rd_schema_id rd); VInt (rd_group_id rd)] in
  let twice (run : outcome * St D) :=
    (In (CQueryRow OnTx hasPrivilegeQuery args r) (calls (snd run)) /\
     otherThanNoRows (fst (Scan5 r)) = Some e) \/
    (In (CQueryRow OnTx hasSchemaPrivilegeQuery args r) (calls (snd run)) /\
     otherThanNoRows (fst (Scan2 r)) = Some e) ->
    fst run = Returned (Some e) /\
    exists before rb1 rb2,
      calls (snd run) = before ++ [CRollback rb1; CRollback rb2] /\
      existsb isRollback before = false in
  twice (resourceRedshiftSchemaGroupPrivilegeCreate D (start D rd w)) /\
  twice (resourceRedshiftSchemaGroupPrivilegeRead D (start D rd w)).
Proof.
  cbv zeta.
  remember (otherThanNoRows (fst (Scan5 r))) as first eqn:Hfirst.
  remember (otherThanNoRows (fst (Scan2 r))) as second eqn:Hsecond.
  split.
  - open_hook. repeat answer;
      try (intros [[Hin _]|[Hin _]]; locate Hin; fail).
    through_executor; intros [[Hin Hr]|[Hin Hr]]; locate Hin;
      injection Hin as <-; try congruence;
      (split; [congruence|]);
      first
        [ eexists (_ :: _ :: _ :: executed _ ++ [_]), _, _;
          split; [cbn [app]; rewrite <- !app_assoc; reflexivity|scan_log]
        | eexists (_ :: _ :: _ :: executed _ ++ [_; _]), _, _;
          split; [cbn [app]; rewrite <- !app_assoc; reflexivity|scan_log] ].
  - open_hook. repeat answer;
      try (intros [[Hin _]|[Hin _]]; locate Hin; fail).
    unfold tryOr, bind. repeat answer;
      intros [[Hin Hr]|[Hin Hr]]; locate Hin;
      injection Hin as <-; try congruence;
      (split; [congruence|]);
      first [ now eexists [_; _], _, _ | now eexists [_; _; _], _, _ ].
Qed.

End MoreHooks2.

(** ** Every transaction is closed *)

Section ClosingTheTransaction.

Variable D : Driver.





End ClosingTheTransaction.

(** ** The validators *)

(** X13: [validateGrants] and [validateSchemaGrants] return the keywords of
    exactly the flags that read true, in the fixed order of the attribute
    tables; a keyword is in the result if and only if its flag is set. *)
Theorem validators_list_the_set_flags (rd : ResourceData) :
  validateGrants rd = keywords rd tableLevel /\
  validateSchemaGrants rd = keywords rd schemaLevelOnCreate /\
  (forall attribute privilege,
     In (attribute, privilege) tableLevel ->
     (In privilege (validateGrants rd) <-> Get rd attribute = true)) /\
  (forall attribute privilege,
     In (attribute, privilege) schemaLevelOnCreate ->
     (In privilege (validateSchemaGrants rd) <-> Get rd attribute = true)).
Proof.
  split; [apply validateGrants_keywords|].
  split; [apply validateSchemaGrants_keywords|].
  split; intros attribute privilege Hin.
  - rewrite validateGrants_keywords. unfold keywords, tableLevel in *.
    cbn [filter fst]. cbn [In] in Hin.
    destruct (Get rd "select") eqn:H1, (Get rd "insert") eqn:H2,
      (Get rd "update") eqn:H3, (Get rd "delete") eqn:H4,
      (Get rd "references") eqn:H5;
      repeat match type of Hin with
             | _ \/ _ => destruct Hin as [Hin|Hin]
             | False => contradiction
             end;
      injection Hin as <- <-; cbn [map snd In];
      split; intros H; try congruence; try (now auto 10);
      repeat match type of H with
             | _ \/ _ => destruct H as [H|H]
             | False => contradiction
             end; try discriminate H; congruence.
  - rewrite validateSchemaGrants_keywords.
    unfold keywords, schemaLevelOnCreate in *.
    cbn [filter fst]. cbn [In] in Hin.
    destruct (Get rd "create") eqn:H1, (Get rd "usage") eqn:H2;
      repeat match type of Hin with
             | _ \/ _ => destruct Hin as [Hin|Hin]
             | False => contradiction
             end;
      injection Hin as <- <-; cbn [map snd In];
      split; intros H; try congruence; try (now auto 10);
      repeat match type of H with
             | _ \/ _ => destruct H as [H|H]
             | False => contradiction
             end; try discriminate H; congruence.
Qed.

(** * The schema resource *)

Lemma append_assoc (a b c : string) :
  ((a ++ b) ++ c = a ++ b ++ c)%string.
Proof.
  induction a as [|ch a IH]; cbn [String.append]; [reflexivity|].
  now rewrite IH.
Qed.

Ltac schema_tidy :=
  cbn [d world calls fst snd app Id SetId rd_id negb andb String.append].

Ltac open_schema_hook :=
  cbv zeta;
  unfold resourceRedshiftSchemaCreate, resourceRedshiftSchemaUpdate,
    resourceRedshiftSchemaDelete, resourceRedshiftSchemaImport,
    resourceRedshiftSchemaRead, readRedshiftSchema, start;
  unfold bind, Begin, Exec, QueryRow, Rollback, Commit, getD, modifyD, ret;
  schema_tidy.

Ltac schema_answer :=
  schema_tidy;
  match goal with
  | H : drv_begin ?D ?before = _ |- context [drv_begin ?D ?before] =>
      rewrite H
  | H : drv_exec ?D ?sql ?before = _ |- context [drv_exec ?D ?sql ?before] =>
      rewrite H
  | H : drv_query ?D ?sql ?args ?before = _
    |- context [drv_query ?D ?sql ?args ?before] => rewrite H
  | |- context [drv_begin ?D ?before] =>
      let E := fresh "Hbegin" in
      destruct (drv_begin D before) as [[?e|] ?w] eqn:E
  | |- context [drv_exec ?D ?sql ?before] =>
      let E := fresh "Hexec" in
      destruct (drv_exec D sql before) as [[?e|] ?w] eqn:E
  | |- context [drv_query ?D ?sql ?args ?before] =>
      let E := fresh "Hquery" in
      destruct (drv_query D sql args before) as [?r ?w] eqn:E
  | |- context [drv_rollback ?D ?before] =>
      destruct (drv_rollback D before) as [?rb ?w]
  | |- context [drv_commit ?D ?before] =>
      destruct (drv_commit D before) as [[?e|] ?w]
  | |- context [ScanNameOwnerQuota ?r] =>
      let E := fresh "Hscan" in
      destruct (ScanNameOwnerQuota r) as [[?e|] [[?name ?owner] ?quota]] eqn:E
  | |- context [ScanText ?r] =>
      let E := fresh "Hscan" in
      destruct (ScanText r) as [[?e|] ?oid] eqn:E
  | |- context [if ?c then _ else _] =>
      let E := fresh "Hif" in destruct c eqn:E
  end;
  schema_tidy.

Section SchemaProperties.

Variable D : Driver.
Variable users : list Z -> M D (list string).

Lemma owner_unset (sd : SchemaData) :
  SGetInt sd "owner" = 0%Z -> SGetOkInt sd "owner" = (0%Z, false).
Proof. unfold SGetOkInt. now intros ->. Qed.

(** X14: without an owner, Create starts with the one statement
    [CREATE SCHEMA <name> QUOTA UNLIMITED], or [QUOTA <n> MB] for any quota
    other than zero; when that statement is refused its error is returned
    and nothing else has been called or written. *)
Theorem schema_create_statement (sd : SchemaData) (st : St D) :
  SGetInt sd "owner" = 0%Z ->
  let statement :=
    ("CREATE SCHEMA " ++ SGetString sd "schema_name" ++ " QUOTA "
     ++ quotaClause (SGetInt sd "quota"))%string in
  let answered := drv_exec D statement (world st) in
  let run := resourceRedshiftSchemaCreate D users sd st in
  (exists rest,
     calls (snd run) = calls st ++ CExec statement (fst answered) :: rest) /\
  (forall e, fst answered = Some e ->
     run = (Returned (Some e), sd,
            {| d := d st; world := snd answered;
               calls := calls st ++ [CExec statement (Some e)] |})).
Proof.
  intros Howner. cbv zeta. unfold resourceRedshiftSchemaCreate.
  rewrite (owner_unset sd Howner). unfold SGetOkInt, quotaClause, Itoa.
  destruct (SGetInt sd "quota" =? 0)%Z; cbn [negb andb].
  - open_schema_hook. split.
    + repeat schema_answer; rewrite <- ?app_assoc; eexists; reflexivity.
    + intros e He. destruct (drv_exec D _ (world st)) as [r w1].
      cbn [fst] in He. subst r. reflexivity.
  - open_schema_hook. split.
    + repeat schema_answer; rewrite <- ?app_assoc; eexists; reflexivity.
    + intros e He. destruct (drv_exec D _ (world st)) as [r w1].
      cbn [fst] in He. subst r. reflexivity.
Qed.

(** X15: once its statement is accepted, Create looks the schema up by
    name.  A lookup that fails, be it for want of a row, is returned as it
    is with the identifier untouched and the statement not undone; a lookup
    that succeeds makes its column the identifier, and Create ends as the
    read of that identifier ends. *)
Theorem schema_create_identifier (sd : SchemaData) (st : St D)
  (w1 w2 : World D) (r : error + list value) :
  SGetInt sd "owner" = 0%Z ->
  let statement :=
    ("CREATE SCHEMA " ++ SGetString sd "schema_name" ++ " QUOTA "
     ++ quotaClause (SGetInt sd "quota"))%string in
  let lookup := CQueryRow OnDB oidQuery
                  [VString (SGetString sd "schema_name")] r in
  let run := resourceRedshiftSchemaCreate D users sd st in
  drv_exec D statement (world st) = (None, w1) ->
  drv_query D oidQuery [VString (SGetString sd "schema_name")] w1 = (r, w2) ->
  (forall e, fst (ScanText r) = Some e ->
     run = (Returned (Some e), sd,
            {| d := d st; world := w2;
               calls := calls st ++ [CExec statement None; lookup] |})) /\
  (forall oid, ScanText r = (None, oid) ->
     let reading :=
       readRedshiftSchema D sd
         {| d := SetId oid (d st); world := w2;
            calls := calls st ++ [CExec statement None; lookup] |} in
     Id (d (snd run)) = oid /\
     fst run = (Returned (fst (fst reading)), snd (fst reading)) /\
     snd run = snd reading).
Proof.
  intros Howner. cbv zeta. unfold resourceRedshiftSchemaCreate.
  rewrite (owner_unset sd Howner). unfold SGetOkInt, quotaClause, Itoa.
  destruct (SGetInt sd "quota" =? 0)%Z; cbn [negb andb];
    intros Hexec Hquery; open_schema_hook;
    (split; [intros e Hscan|intros oid Hscan]);
    cbn [String.append] in Hexec; rewrite Hexec; schema_tidy; rewrite Hquery;
    schema_tidy.
  all: try (destruct (ScanText r) as [[e'|] oid']; [|discriminate];
            cbn [fst] in Hscan; injection Hscan as ->;
            now rewrite <- app_assoc).
  all: rewrite Hscan; schema_tidy; rewrite <- !app_assoc; cbn [app];
    repeat schema_answer; repeat split.
Qed.

(** X16: with an owner, Create asks for the user's name first.  With no
    name it panics before any statement; with names, the first one goes
    into the statement as [AUTHORIZATION <name>] between the schema name
    and the quota. *)
Theorem schema_create_with_owner (sd : SchemaData) (st : St D) :
  SGetInt sd "owner" <> 0%Z ->
  let asked := users [SGetInt sd "owner"] st in
  let run := resourceRedshiftSchemaCreate D users sd st in
  (fst asked = [] -> run = (Panicked indexOutOfRange, sd, snd asked)) /\
  (forall first others, fst asked = first :: others ->
     let statement :=
       ("CREATE SCHEMA " ++ SGetString sd "schema_name" ++ " AUTHORIZATION "
        ++ first ++ " QUOTA " ++ quotaClause (SGetInt sd "quota"))%string in
     exists rest,
       calls (snd run)
       = calls (snd asked)
         ++ CExec statement (fst (drv_exec D statement (world (snd asked))))
            :: rest).
Proof.
  intros Howner. cbv zeta. unfold resourceRedshiftSchemaCreate, SGetOkInt.
  apply Z.eqb_neq in Howner. rewrite Howner. cbn [negb andb].
  unfold bind. destruct (users [SGetInt sd "owner"] st) as [names st1].
  cbn [fst snd]. split.
  - intros ->. reflexivity.
  - intros first others ->. unfold quotaClause, Itoa.
    destruct (SGetInt sd "quota" =? 0)%Z; cbn [negb]; open_schema_hook;
      rewrite ?append_assoc; schema_tidy;
      repeat schema_answer; rewrite <- ?app_assoc; eexists; reflexivity.
Qed.

(** X17: the schema read makes one QueryRow on the connection with the
    identifier and never writes the identifier.  Any error of its scan,
    [sql.ErrNoRows] for a missing schema included, is returned with the
    attributes untouched, and Import then returns no resource; a row of
    name, owner and quota is written into these three attributes, leaves
    [cascade_on_delete] and the pending changes alone, and Import returns
    that one resource. *)
Theorem schema_read (sd : SchemaData) (st : St D) :
  let answered :=
    drv_query D readSchemaQuery [VString (Id (d st))] (world st) in
  let after :=
    {| d := d st; world := snd answered;
       calls := calls st ++ [CQueryRow OnDB readSchemaQuery
                               [VString (Id (d st))] (fst answered)] |} in
  let read := resourceRedshiftSchemaRead D sd st in
  let import := resourceRedshiftSchemaImport D sd st in
  snd read = after /\
  snd import = after /\
  (forall e, fst (ScanNameOwnerQuota (fst answered)) = Some e ->
     fst read = (Some e, sd) /\ fst import = ([], Some e)) /\
  (fst answered = inl ErrNoRows ->
     fst read = (Some ErrNoRows, sd) /\ fst import = ([], Some ErrNoRows)) /\
  (forall name owner quota,
     fst answered = inr [VString name; VInt owner; VInt quota] ->
     exists sd',
       fst read = (None, sd') /\
       fst import = ([(Id (d st), sd')], None) /\
       SGetString sd' "schema_name" = name /\
       SGetInt sd' "owner" = owner /\
       SGetInt sd' "quota" = quota /\
       SGetBool sd' "cascade_on_delete" = SGetBool sd "cascade_on_delete" /\
       (forall key, SHasChange sd' key = SHasChange sd key)).
Proof.
  open_schema_hook.
  destruct (drv_query D readSchemaQuery _ (world st)) as [r w1]. schema_tidy.
  split; [|split; [|split; [|split]]].
  - destruct (ScanNameOwnerQuota r) as [[e|] [[name owner] quota]];
      reflexivity.
  - destruct (ScanNameOwnerQuota r) as [[e|] [[name owner] quota]];
      reflexivity.
  - intros e He.
    destruct (ScanNameOwnerQuota r) as [[e'|] [[name owner] quota]];
      [|discriminate].
    cbn [fst] in He. injection He as ->. now split.
  - intros ->. now split.
  - intros name owner quota ->. eexists. repeat split.
Qed.

(** X18: the schema hooks Create (without owner), Read, Import and Delete
    work outside any transaction: no Begin, Commit or Rollback is ever
    logged, so nothing they did is undone when a later step fails.  Delete
    is one statement, [DROP SCHEMA <name>] with [ CASCADE ] appended when
    the flag is set, and returns what that statement answers. *)
Theorem schema_hooks_without_transaction (sd : SchemaData) (st : St D) :
  let control c := isBegin c || isCommit c || isRollback c in
  let statement :=
    if SGetBool sd "cascade_on_delete"
    then ("DROP SCHEMA " ++ SGetString sd "schema_name" ++ " CASCADE ")%string
    else ("DROP SCHEMA " ++ SGetString sd "schema_name")%string in
  let dropped := drv_exec D statement (world st) in
  existsb control (calls st) = false ->
  (SGetInt sd "owner" = 0%Z ->
   existsb control (calls (snd (resourceRedshiftSchemaCreate D users sd st)))
   = false) /\
  existsb control (calls (snd (resourceRedshiftSchemaRead D sd st))) = false /\
  existsb control (calls (snd (resourceRedshiftSchemaImport D sd st))) = false
  /\
  resourceRedshiftSchemaDelete D sd st
  = (Returned (fst dropped),
     {| d := d st; world := snd dropped;
        calls := calls st ++ [CExec statement (fst dropped)] |}).
Proof.
  cbv zeta. intros Hclean. split; [|split; [|split]].
  - intros Howner. unfold resourceRedshiftSchemaCreate.
    rewrite (owner_unset sd Howner). open_schema_hook.
    repeat schema_answer; rewrite !existsb_app, Hclean; reflexivity.
  - open_schema_hook.
    repeat schema_answer; rewrite !existsb_app, Hclean; reflexivity.
  - open_schema_hook.
    repeat schema_answer; rewrite !existsb_app, Hclean; reflexivity.
  - unfold resourceRedshiftSchemaDelete, SGetOkBool.
    destruct (SGetBool sd "cascade_on_delete"); cbn [andb];
      open_schema_hook; rewrite ?append_assoc; schema_tidy;
      destruct (drv_exec D _ (world st)) as [[e|] w1]; reflexivity.
Qed.

(** The statements of a schema update that changes no owner. *)
Lemma schema_update_runs (sd : SchemaData) (rd : ResourceData) (w : World D) :
  SHasChange sd "owner" = false ->
  let run := resourceRedshiftSchemaUpdate D users sd (start D rd w) in
  let stmts := schemaUpdateStatements sd in
  (exists e,
     fst (drv_begin D w) = Some e /\
     fst run = (Panicked e, sd) /\ calls (snd run) = [CBegin (Some e)]) \/
  (exists pre sql post e,
     stmts = pre ++ sql :: post /\
     fst run = (Returned (Some e), sd) /\
     calls (snd run) = CBegin None :: executed pre ++ [CExec sql (Some e)]) \/
  (exists r e rb,
     fst (ScanNameOwnerQuota r) = Some e /\
     fst run = (Returned (Some e), sd) /\
     calls (snd run)
     = CBegin None :: executed stmts
       ++ [CQueryRow OnDB readSchemaQuery [VString (Id rd)] r;
           CRollback rb]) \/
  (exists r c sd',
     fst (ScanNameOwnerQuota r) = None /\
     fst run = (Returned c, sd') /\
     calls (snd run)
     = CBegin None :: executed stmts
       ++ [CQueryRow OnDB readSchemaQuery [VString (Id rd)] r; CCommit c]).
Proof.
  intros Howner. cbv zeta.
  unfold resourceRedshiftSchemaUpdate, schemaUpdateStatements.
  rewrite Howner. unfold SGetChangeString, SGetOkInt, quotaClause, Itoa.
  cbn [String.eqb Ascii.eqb Bool.eqb andb].
  destruct (SHasChange sd "schema_name"), (SHasChange sd "quota"),
    (SGetInt sd "quota" =? 0)%Z; cbn [negb andb app];
    open_schema_hook; repeat schema_answer;
    unfold executed; cbn [map app].
  all: try (left; eexists;
            split; [reflexivity|split; reflexivity]).
  all: try (right; right; right; eexists _, _, _;
            split; [rewrite Hscan; reflexivity|]; split; reflexivity).
  all: try (right; right; left; eexists _, _, _;
            split; [rewrite Hscan; reflexivity|]; split; reflexivity).
  all: right; left.
  all: first
    [ eexists [], _, _, _; split; [reflexivity|]; split; reflexivity
    | eexists [_], _, _, _; split; [reflexivity|]; split; reflexivity ].
Qed.

(** X19: a statement of the schema update that is refused ends the hook
    with its error and nothing more: the refused statement is the last
    call, and the transaction opened at the start is neither rolled back
    nor committed. *)
Theorem schema_update_leaves_transaction_open (sd : SchemaData)
  (rd : ResourceData) (w : World D) (sql : string) (e : error) :
  SHasChange sd "owner" = false ->
  let run := resourceRedshiftSchemaUpdate D users sd (start D rd w) in
  In (CExec sql (Some e)) (calls (snd run)) ->
  fst run = (Returned (Some e), sd) /\
  (exists before, calls (snd run) = CBegin None :: before
                                    ++ [CExec sql (Some e)]) /\
  existsb isRollback (calls (snd run)) = false /\
  existsb isCommit (calls (snd run)) = false.
Proof.
  intros Howner run Hin. subst run.
  destruct (schema_update_runs sd rd w Howner)
    as [(e' & Hfail & Hret & Hlog)|
        [(pre & sql' & post & e' & Hs & Hret & Hlog)|
        [(r & e' & rb & Hscan & Hret & Hlog)|
         (r & c & sd' & Hscan & Hret & Hlog)]]];
    rewrite Hlog in Hin |- *; locate Hin.
  injection Hin as -> ->.
  split; [exact Hret|]. split; [now exists (executed pre)|].
  split; scan_log.
Qed.

(** X20: a schema update that changes no owner and meets no refusal sends
    the rename with the old and the new name if the name changed, then the
    quota statement under the new name if the quota changed, and nothing
    else; it then reads the schema back on the connection itself and
    commits, returning what Commit answers, or rolls back and returns the
    read's error. *)
Theorem schema_update_statements (sd : SchemaData) (rd : ResourceData)
  (w w1 : World D) :
  SHasChange sd "owner" = false ->
  let run := resourceRedshiftSchemaUpdate D users sd (start D rd w) in
  let rename :=
    if SHasChange sd "schema_name"
    then [("ALTER SCHEMA " ++ sa_schema_name (sd_state sd) ++ " RENAME TO "
           ++ sa_schema_name (sd_plan sd))%string]
    else [] in
  let requota :=
    if SHasChange sd "quota"
    then [("ALTER SCHEMA " ++ SGetString sd "schema_name" ++ " QUOTA "
           ++ quotaClause (SGetInt sd "quota"))%string]
    else [] in
  drv_begin D w = (None, w1) ->
  (forall sql e, ~ In (CExec sql (Some e)) (calls (snd run))) ->
  statements (calls (snd run)) = rename ++ requota /\
  exists r closing,
    calls (snd run)
    = CBegin None :: executed (rename ++ requota)
      ++ [CQueryRow OnDB readSchemaQuery [VString (Id rd)] r; closing] /\
    ((exists c, closing = CCommit c /\ fst (fst run) = Returned c /\
                fst (ScanNameOwnerQuota r) = None) \/
     (exists rb e, closing = CRollback rb /\
                   fst (fst run) = Returned (Some e) /\
                   fst (ScanNameOwnerQuota r) = Some e)).
Proof.
  intros Howner run rename requota Hbegin Hacc. subst run.
  change (rename ++ requota) with (schemaUpdateStatements sd).
  destruct (schema_update_runs sd rd w Howner)
    as [(e' & Hfail & Hret & Hlog)|
        [(pre & sql' & post & e' & Hs & Hret & Hlog)|
        [(r & e' & rb & Hscan & Hret & Hlog)|
         (r & c & sd' & Hscan & Hret & Hlog)]]].
  - rewrite Hbegin in Hfail. discriminate.
  - exfalso. eapply Hacc. rewrite Hlog. logged.
  - rewrite Hlog, Hret. split; [now read_statements|].
    eexists _, _. split; [reflexivity|]. right. now eexists _, _.
  - rewrite Hlog, Hret. split; [now read_statements|].
    eexists _, _. split; [reflexivity|]. left. now eexists.
Qed.

End SchemaProperties.

(** ** Examples for the further properties *)

(** X1, witness: the columns 1 0 1 0 0 and 1 0 are stored as select,
    insert and usage. *)
Lemma read_stores_scanned_flags_witness :
  let rd := Scripted.resource 100 noPrivileges noPrivileges in
  let w := Scripted.fresh
             [ (hasPrivilegeQuery,
                inr (map flagColumn [true; false; true; false; false]));
               (hasSchemaPrivilegeQuery,
                inr (map flagColumn [true; false])) ] [] in
  let read := readRedshiftSchemaGroupPrivilege Scripted.driver
                (start Scripted.driver rd w) in
  fst read = None /\
  observed (d (snd read))
  = Scripted.privileges true true false false false false true.
Proof.
  intros rd w read.
  exact (proj1 (proj2 (read_stores_scanned_flags Scripted.driver
                         (start Scripted.driver rd w)
                         true false true false false true false))
           eq_refl eq_refl).
Defined.

(** X2, witness: select is planned, the warehouse reports insert and
    usage; Create stores what it read. *)
Lemma hooks_store_read_back_witness :
  let rd := Scripted.resource 100 noPrivileges
              (Scripted.privileges true false false false false false false) in
  let w := Scripted.fresh
             (Scripted.names "s" 100
              ++ [ (hasPrivilegeQuery,
                    inr (map flagColumn [false; false; true; false; false]));
                   (hasSchemaPrivilegeQuery,
                    inr (map flagColumn [true; false])) ]) [] in
  let create := resourceRedshiftSchemaGroupPrivilegeCreate Scripted.driver
                  (start Scripted.driver rd w) in
  exists before r1 r2,
    calls (snd create)
    = before ++ [CQueryRow OnTx hasPrivilegeQuery [VInt 100; VInt 7] r1;
                 CQueryRow OnTx hasSchemaPrivilegeQuery [VInt 100; VInt 7] r2;
                 CCommit None] /\
    observed (d (snd create))
    = flagsRead (snd (Scan5 r1)) (snd (Scan2 r2)).
Proof.
  intros rd w create.
  exact (proj1 (hooks_store_read_back Scripted.driver rd w) eq_refl).
Defined.

(** X3, witness: a warehouse that refuses to open a transaction. *)
Lemma begin_failure_panics_witness :
  let e := DriverError "connection refused" in
  let rd := Scripted.resource 100 noPrivileges
              (Scripted.privileges true false false false false false false) in
  let w := {| Scripted.beginError := Some e; Scripted.answers := [];
              Scripted.refused := []; Scripted.pending := [];
              Scripted.committed := [] |} in
  resourceRedshiftSchemaGroupPrivilegeUpdate Scripted.driver
    (start Scripted.driver rd w)
  = (Panicked e, Build_St Scripted.driver rd w [CBegin (Some e)]).
Proof.
  intros e rd w.
  exact (proj1 (proj2 (proj2
           (begin_failure_panics Scripted.driver
              (start Scripted.driver rd w) e w eq_refl)))).
Defined.

(** X4, witness: a warehouse that knows no schema 100. *)
Lemma unresolved_schema_aborts_witness :
  let rd := Scripted.resource 100 noPrivileges
              (Scripted.privileges true false false false false false false) in
  let w := Scripted.fresh [] [] in
  let delete := resourceRedshiftSchemaGroupPrivilegeDelete Scripted.driver
                  (start Scripted.driver rd w) in
  fst delete = Returned (Some ErrNoRows) /\
  calls (snd delete)
  = [CBegin None;
     CQueryRow OnTx schemaInfoQuery [VInt 100] (inl ErrNoRows);
     CRollback None].
Proof.
  intros rd w delete.
  exact (proj2 (proj2 (proj2
           (unresolved_schema_aborts Scripted.driver rd w w w
              (inl ErrNoRows) ErrNoRows eq_refl eq_refl eq_refl)))).
Defined.

(** X5, witness: schema [s], group [g]. *)
Lemma delete_statements_witness :
  let rd := Scripted.resource 100
              (Scripted.privileges true false false false false false false)
              noPrivileges in
  let w := Scripted.fresh (Scripted.names "s" 100) [] in
  let delete := resourceRedshiftSchemaGroupPrivilegeDelete Scripted.driver
                  (start Scripted.driver rd w) in
  exists c,
    fst delete = Returned c /\
    calls (snd delete)
    = [CBegin None;
       CQueryRow OnTx schemaInfoQuery [VInt 100]
         (inr [VString "s"; VInt 100]);
       CQueryRow OnTx groupNameQuery [VInt 7] (inr [VString "g"])]
      ++ executed
           [ "REVOKE ALL ON  ALL TABLES IN SCHEMA s FROM GROUP g";
             "ALTER DEFAULT PRIVILEGES IN SCHEMA s REVOKE ALL ON TABLES FROM GROUP g";
             "REVOKE ALL ON SCHEMA s FROM GROUP g" ]
      ++ [CCommit c].
Proof.
  intros rd w delete.
  refine (delete_statements Scripted.driver rd w w w w "s" "g" 100
            eq_refl eq_refl eq_refl _).
  intros sql e H. vm_compute in H. intuition discriminate.
Defined.

(** X6, witness: the last statement of Delete is refused. *)
Lemma delete_failure_rolls_back_witness :
  let refusal := DriverError "permission denied for schema s" in
  let last := "REVOKE ALL ON SCHEMA s FROM GROUP g" in
  let rd := Scripted.resource 100
              (Scripted.privileges true false false false false false false)
              noPrivileges in
  let w := Scripted.fresh (Scripted.names "s" 100) [(last, refusal)] in
  let delete := resourceRedshiftSchemaGroupPrivilegeDelete Scripted.driver
                  (start Scripted.driver rd w) in
  fst delete = Returned (Some refusal) /\
  existsb isCommit (calls (snd delete)) = false.
Proof.
  intros refusal last rd w delete.
  assert (Hin : In (CExec last (Some refusal)) (calls (snd delete)))
    by (vm_compute; auto 10).
  destruct (delete_failure_rolls_back Scripted.driver rd w last refusal Hin)
    as (Hret & _ & Hnone).
  split; assumption.
Defined.

(** X7, witness: an import under the identifier [1_2] and one under the
    empty identifier, both of schema 100 and group 7. *)
Lemma read_ignores_identifier_witness :
  let rd := Scripted.resource 100 noPrivileges noPrivileges in
  let w := Scripted.fresh
             [ (hasPrivilegeQuery,
                inr (map flagColumn [true; false; false; false; false])) ]
             [] in
  let import rd := resourceRedshiftSchemaGroupPrivilegeImport Scripted.driver
                     (start Scripted.driver rd w) in
  calls (snd (import (SetId "1_2" rd))) = calls (snd (import rd)) /\
  fst (fst (import (SetId "1_2" rd)))
  = map (SetId "1_2") (fst (fst (import rd))).
Proof.
  intros rd w import.
  destruct (read_ignores_identifier Scripted.driver rd w "1_2")
    as (_ & _ & _ & _ & _ & Hslice & Hcalls & _).
  split; [exact Hcalls|exact Hslice].
Defined.

(** X8, witness: a Create that reads back, and one that stops at the
    schema lookup. *)
Lemma create_sets_identifier_before_read_back_witness :
  let rd := Scripted.resource 100 noPrivileges
              (Scripted.privileges true false false false false false false) in
  let create w := resourceRedshiftSchemaGroupPrivilegeCreate Scripted.driver
                    (start Scripted.driver rd w) in
  Id (d (snd (create (Scripted.fresh (Scripted.names "s" 100) [])))) = "100_7"
  /\ d (snd (create (Scripted.fresh [] []))) = rd.
Proof.
  intros rd create. split.
  - refine (proj1 (create_sets_identifier_before_read_back Scripted.driver rd
                     (Scripted.fresh (Scripted.names "s" 100) [])) _).
    exists (inl ErrNoRows). vm_compute. auto 10.
  - refine (proj2 (create_sets_identifier_before_read_back Scripted.driver rd
                     (Scripted.fresh [] [])) _).
    intros r H. vm_compute in H. intuition discriminate.
Defined.

(** X10, witness: an update that commits. *)
Lemma commit_ends_the_run_witness :
  let rd := Scripted.resource 100 noPrivileges
              (Scripted.privileges true false false false false false false) in
  let w := Scripted.fresh (Scripted.names "s" 100) [] in
  let update := resourceRedshiftSchemaGroupPrivilegeUpdate Scripted.driver
                  (start Scripted.driver rd w) in
  fst update = Returned None /\
  exists before,
    calls (snd update) = before ++ [CCommit None] /\
    existsb isRollback before = false /\
    existsb isCommit before = false.
Proof.
  intros rd w update.
  refine (proj1 (proj2 (proj2
            (commit_ends_the_run Scripted.driver rd w None))) _).
  vm_compute. auto 10.
Defined.

(** X11, witness: the first privilege query fails during a Read. *)
Lemma failed_read_back_rolls_back_twice_witness :
  let broken := DriverError "connection reset" in
  let rd := Scripted.resource 100 noPrivileges noPrivileges in
  let w := Scripted.fresh [(hasPrivilegeQuery, inl broken)] [] in
  let read := resourceRedshiftSchemaGroupPrivilegeRead Scripted.driver
                (start Scripted.driver rd w) in
  fst read = Returned (Some broken) /\
  exists before rb1 rb2,
    calls (snd read) = before ++ [CRollback rb1; CRollback rb2] /\
    existsb isRollback before = false.
Proof.
  intros broken rd w read.
  refine (proj2 (failed_read_back_rolls_back_twice Scripted.driver rd w
                   (inl broken) broken) _).
  left. split; [vm_compute; auto 10|reflexivity].
Defined.


(** X13, witness: select and usage are set, insert is not. *)
Lemma validators_list_the_set_flags_witness :
  let rd := Scripted.resource 100 noPrivileges
              (Scripted.privileges true false false false false false true) in
  In "SELECT" (validateGrants rd) /\
  In "USAGE" (validateSchemaGrants rd) /\
  ~ In "INSERT" (validateGrants rd).
Proof.
  intros rd.
  destruct (validators_list_the_set_flags rd) as (_ & _ & Htable & Hschema).
  split; [|split].
  - apply (proj2 (Htable "select" "SELECT" (or_introl eq_refl))).
    reflexivity.
  - apply (proj2 (Hschema "usage" "USAGE" (or_intror (or_introl eq_refl)))).
    reflexivity.
  - intros Hin.
    apply (proj1 (Htable "insert" "INSERT" (or_intror (or_introl eq_refl))))
      in Hin.
    discriminate Hin.
Defined.

(** X14, witness: a quota of 4096 megabytes, and a warehouse that refuses
    the statement. *)
Lemma schema_create_statement_witness :
  let refusal := DriverError "permission denied for database dev" in
  let statement := "CREATE SCHEMA analytics QUOTA 4096 MB" in
  let sd := planned (analytics 0 false) (analytics 4096 false) in
  let rd := Scripted.resource 0 noPrivileges noPrivileges in
  let w := Scripted.fresh [] [(statement, refusal)] in
  resourceRedshiftSchemaCreate Scripted.driver nobody sd
    (start Scripted.driver rd w)
  = (Returned (Some refusal), sd,
     Build_St Scripted.driver rd w [CExec statement (Some refusal)]).
Proof.
  intros refusal statement sd rd w.
  exact (proj2 (schema_create_statement Scripted.driver nobody sd
                  (start Scripted.driver rd w) eq_refl)
           refusal eq_refl).
Defined.

(** X15, witness: the new schema has got the object identifier 4711. *)
Lemma schema_create_identifier_witness :
  let sd := planned (analytics 0 false) (analytics 0 false) in
  let rd := Scripted.resource 0 noPrivileges noPrivileges in
  let w := Scripted.fresh [(oidQuery, inr [VInt 4711])] [] in
  let run := resourceRedshiftSchemaCreate Scripted.driver nobody sd
               (start Scripted.driver rd w) in
  Id (d (snd run)) = "4711".
Proof.
  intros sd rd w run.
  exact (proj1 (proj2 (schema_create_identifier Scripted.driver nobody sd
                         (start Scripted.driver rd w)
                         (snd (Scripted.exec
                                 "CREATE SCHEMA analytics QUOTA UNLIMITED" w))
                         (snd (Scripted.exec
                                 "CREATE SCHEMA analytics QUOTA UNLIMITED" w))
                         (inr [VInt 4711]) eq_refl eq_refl eq_refl)
                  "4711" eq_refl)).
Defined.

(** X16, witness: owner 101 is the user [alice]; and an owner nobody
    knows. *)
Lemma schema_create_with_owner_witness :
  let owned := {| sa_schema_name := "analytics"; sa_owner := 101;
                  sa_quota := 0; sa_cascade_on_delete := false |} in
  let sd := planned (analytics 0 false) owned in
  let rd := Scripted.resource 0 noPrivileges noPrivileges in
  let st := start Scripted.driver rd (Scripted.fresh [] []) in
  let alice : list Z -> M Scripted.driver (list string) :=
    fun _ => ret ["alice"] in
  resourceRedshiftSchemaCreate Scripted.driver nobody sd st
  = (Panicked indexOutOfRange, sd, st) /\
  exists rest,
    calls (snd (resourceRedshiftSchemaCreate Scripted.driver alice sd st))
    = CExec "CREATE SCHEMA analytics AUTHORIZATION alice QUOTA UNLIMITED"
        None :: rest.
Proof.
  intros owned sd rd st alice.
  assert (Howner : SGetInt sd "owner" <> 0%Z) by discriminate.
  split.
  - exact (proj1 (schema_create_with_owner Scripted.driver nobody sd st
                    Howner) eq_refl).
  - exact (proj2 (schema_create_with_owner Scripted.driver alice sd st
                    Howner) "alice" [] eq_refl).
Defined.

(** X17, witness: the schema 4711 is stored as [analytics] of user 100
    with a quota of 4096; and a schema that is gone. *)
Lemma schema_read_witness :
  let sd := planned (analytics 0 true) (analytics 0 true) in
  let rd := SetId "4711" (Scripted.resource 0 noPrivileges noPrivileges) in
  let stored := Scripted.fresh
                  [(readSchemaQuery,
                    inr [VString "analytics"; VInt 100; VInt 4096])] [] in
  let gone := Scripted.fresh [] [] in
  (exists sd',
     fst (resourceRedshiftSchemaImport Scripted.driver sd
            (start Scripted.driver rd stored))
     = ([("4711", sd')], None) /\
     SGetInt sd' "quota" = 4096%Z /\
     SGetBool sd' "cascade_on_delete" = true) /\
  fst (resourceRedshiftSchemaImport Scripted.driver sd
         (start Scripted.driver rd gone))
  = ([], Some ErrNoRows).
Proof.
  intros sd rd stored gone. split.
  - destruct (proj2 (proj2 (proj2 (proj2
               (schema_read Scripted.driver sd
                  (start Scripted.driver rd stored)))))
               "analytics" 100%Z 4096%Z eq_refl)
      as (sd' & _ & Himport & _ & _ & Hquota & Hcascade & _).
    exists sd'. split; [exact Himport|]. split; [exact Hquota|].
    exact Hcascade.
  - exact (proj2 (proj1 (proj2 (proj2 (proj2
             (schema_read Scripted.driver sd
                (start Scripted.driver rd gone))))) eq_refl)).
Defined.

(** X18, witness: dropping [analytics] with its contents. *)
Lemma schema_hooks_without_transaction_witness :
  let sd := planned (analytics 0 true) (analytics 0 true) in
  let rd := SetId "4711" (Scripted.resource 0 noPrivileges noPrivileges) in
  let w := Scripted.fresh [] [] in
  let delete := resourceRedshiftSchemaDelete Scripted.driver sd
                  (start Scripted.driver rd w) in
  fst delete = Returned None /\
  calls (snd delete) = [CExec "DROP SCHEMA analytics CASCADE " None].
Proof.
  intros sd rd w delete.
  pose proof (proj2 (proj2 (proj2
                (schema_hooks_without_transaction Scripted.driver nobody sd
                   (start Scripted.driver rd w) eq_refl)))) as Hrun.
  split; [exact (f_equal fst Hrun)|].
  exact (f_equal (fun run => calls (snd run)) Hrun).
Defined.

(** X19, witness: the rename is refused; the transaction stays open. *)
Lemma schema_update_leaves_transaction_open_witness :
  let refusal := DriverError "schema reports already exists" in
  let rename := "ALTER SCHEMA analytics RENAME TO reports" in
  let renamed := {| sa_schema_name := "reports"; sa_owner := 0;
                    sa_quota := 0; sa_cascade_on_delete := false |} in
  let sd := planned (analytics 0 false) renamed in
  let rd := SetId "4711" (Scripted.resource 0 noPrivileges noPrivileges) in
  let w := Scripted.fresh [] [(rename, refusal)] in
  let run := resourceRedshiftSchemaUpdate Scripted.driver nobody sd
               (start Scripted.driver rd w) in
  fst run = (Returned (Some refusal), sd) /\
  calls (snd run) = [CBegin None; CExec rename (Some refusal)] /\
  existsb isRollback (calls (snd run)) = false /\
  existsb isCommit (calls (snd run)) = false.
Proof.
  intros refusal rename renamed sd rd w run.
  assert (Hin : In (CExec rename (Some refusal)) (calls (snd run)))
    by (vm_compute; auto 10).
  destruct (schema_update_leaves_transaction_open Scripted.driver nobody sd
              rd w rename refusal eq_refl Hin)
    as (Hret & _ & Hrb & Hc).
  split; [exact Hret|]. split; [reflexivity|]. split; assumption.
Defined.

(** X20, witness: [analytics] becomes [reports] with a quota of 4096
    megabytes. *)
Lemma schema_update_statements_witness :
  let renamed := {| sa_schema_name := "reports"; sa_owner := 0;
                    sa_quota := 4096; sa_cascade_on_delete := false |} in
  let sd := planned (analytics 0 false) renamed in
  let rd := SetId "4711" (Scripted.resource 0 noPrivileges noPrivileges) in
  let w := Scripted.fresh
             [(readSchemaQuery,
               inr [VString "reports"; VInt 100; VInt 4096])] [] in
  let run := resourceRedshiftSchemaUpdate Scripted.driver nobody sd
               (start Scripted.driver rd w) in
  statements (calls (snd run))
  = [ "ALTER SCHEMA analytics RENAME TO reports";
      "ALTER SCHEMA reports QUOTA 4096 MB" ].
Proof.
  intros renamed sd rd w run.
  refine (proj1 (schema_update_statements Scripted.driver nobody sd rd w w
                   eq_refl eq_refl _)).
  intros sql e H. vm_compute in H. intuition discriminate.
Defined.
